(** * vine-flow: the room-booking conflict and approval workflow

  A shallow embedding of
  - [src/lib/booking-utils.ts] (the availability checkers),
  - the [AdminApprovalView], [MyBookings] and [CreateBookingDialog]
    components (approval, cancellation and submission handlers),
  - the SQL migrations that declare the [no_overlapping_bookings]
    exclusion constraint, the [valid_booking_time_range] check and the
    row-level security policies of [room_bookings].

  Conventions.  Times are integers ([Z], minutes since an arbitrary
  epoch).  [start_time] and [end_time] of [room_bookings] are zone-less
  columns (the exclusion constraint applies [tsrange] to them): a stored
  value is the wall-clock reading the client sent, and the store compares
  a bound that carries a zone by its digits alone.  A JavaScript [Date]
  is an instant, counted in minutes of UTC; [toISOString()] prints it as
  its UTC reading, and [new Date(s)] reads a string [s] that has a time
  and no zone on the wall clock of the browser, which is [zone] minutes
  ahead of UTC.  Identifiers (uuids) are strings.  A string holds one
  character per [ascii], so the characters are those of U+0000..U+00FF.
  The hosted store is a record of tables, each table a list of rows in
  the order the store returns them. *)

From Stdlib Require Import ZArith List String Ascii Bool Lia Sorted.
Import ListNotations.

Local Open Scope Z_scope.
Local Open Scope list_scope.

(** ** JavaScript string helpers used by the handlers *)

Module Js.

(** [String.prototype.includes]. *)
Fixpoint includes (s sub : string) : bool :=
  if String.prefix sub s then true
  else match s with
       | EmptyString => false
       | String _ rest => includes rest sub
       end.

(** The white space and line terminators [trim] strips, among the
    characters a string can hold here: U+0009..U+000D, U+0020 and the
    no-break space U+00A0 (the others lie above U+00FF). *)
Definition is_space (c : ascii) : bool :=
  match nat_of_ascii c with
  | 9%nat | 10%nat | 11%nat | 12%nat | 13%nat | 32%nat | 160%nat => true
  | _ => false
  end.

Definition is_empty (s : string) : bool :=
  match s with EmptyString => true | String _ _ => false end.

Fixpoint trimStart (s : string) : string :=
  match s with
  | EmptyString => EmptyString
  | String c rest => if is_space c then trimStart rest else s
  end.

Fixpoint trimEnd (s : string) : string :=
  match s with
  | EmptyString => EmptyString
  | String c rest =>
      let rest' := trimEnd rest in
      if is_space c && is_empty rest' then EmptyString else String c rest'
  end.

(** [String.prototype.trim]. *)
Definition trim (s : string) : string := trimEnd (trimStart s).

(** [s || d] on strings: the empty string is falsy. *)
Definition or_else (s d : string) : string :=
  if is_empty s then d else s.

(** Interpolation [`${x}`] of a [string | null] value. *)
Definition interpolate (x : option string) : string :=
  match x with Some s => s | None => "null"%string end.

(** [`${first} ${last}`.trim() || "Unknown User"], as both availability
    checkers and [fetchPendingBookings] build the display name. *)
Definition display_name (first last : option string) : string :=
  or_else (trim (interpolate first ++ " " ++ interpolate last)%string)
          "Unknown User"%string.

End Js.

(** ** The store: tables, constraints and row-level security *)

Module Pg.

Inductive BookingStatus := pending | approved | rejected | cancelled.

Definition status_eqb (a b : BookingStatus) : bool :=
  match a, b with
  | pending, pending | approved, approved
  | rejected, rejected | cancelled, cancelled => true
  | _, _ => false
  end.

(** [UserRole] of [src/lib/auth.ts]. *)
Inductive UserRole := admin | leader | staff.

Definition role_eqb (a b : UserRole) : bool :=
  match a, b with
  | admin, admin | leader, leader | staff, staff => true
  | _, _ => false
  end.

(** Modelled from the spec: the [CREATE TABLE room_bookings] statement is
    not among the migrations at hand.  A row has the columns the handlers
    and the migrations read or write, [rb_id] being the primary key, and
    the two audit columns of the data model ("optional approver reference
    and approval timestamp"), [rb_approved_by] and [rb_approved_at]. *)
Record Booking := mkBooking {
  rb_id : string;
  rb_title : string;
  rb_description : option string;
  rb_room_id : string;
  rb_user_id : string;
  rb_start_time : Z;
  rb_end_time : Z;
  rb_status : BookingStatus;
  rb_updated_at : option Z;
  rb_approved_by : option string;
  rb_approved_at : option Z
}.

Record MeetingRoom := mkRoom {
  mr_id : string;
  mr_name : string;
  mr_capacity : Z;
  mr_is_active : bool
}.

Record Profile := mkProfile {
  pr_id : string;
  pr_first_name : option string;
  pr_last_name : option string
}.

Record Store := mkStore {
  room_bookings : list Booking;
  meeting_rooms : list MeetingRoom;
  profiles : list Profile;
  user_roles : list (string * UserRole)
}.

Definition with_bookings (s : Store) (rows : list Booking) : Store :=
  {| room_bookings := rows;
     meeting_rooms := meeting_rooms s;
     profiles := profiles s;
     user_roles := user_roles s |}.

(** What the client library hands back in [{ data, error }]:
    [error.message] and [error.code]. *)
Record PostgrestError := mkError {
  message : string;
  code : string
}.

Inductive Response (A : Type) :=
| Data (data : A)
| Fail (error : PostgrestError).
Arguments Data {A} data.
Arguments Fail {A} error.

Definition quoted (name : string) : string :=
  let q := String (ascii_of_nat 34) EmptyString in (q ++ name ++ q)%string.

(** SQLSTATE 23P01, raised when an [EXCLUDE] constraint rejects a row. *)
Definition exclusion_violation (constraint : string) : PostgrestError :=
  {| message := ("conflicting key value violates exclusion constraint "
                   ++ quoted constraint)%string;
     code := "23P01" |}.

(** SQLSTATE 23514. *)
Definition check_violation (constraint : string) : PostgrestError :=
  {| message := ("new row for relation " ++ quoted "room_bookings"
                   ++ " violates check constraint " ++ quoted constraint)%string;
     code := "23514" |}.

(** SQLSTATE 23505. *)
Definition unique_violation (constraint : string) : PostgrestError :=
  {| message := ("duplicate key value violates unique constraint "
                   ++ quoted constraint)%string;
     code := "23505" |}.

(** SQLSTATE 42501, raised when a [WITH CHECK] policy rejects a row. *)
Definition rls_violation : PostgrestError :=
  {| message := ("new row violates row-level security policy for table "
                   ++ quoted "room_bookings")%string;
     code := "42501" |}.

(** [auth.uid()]: the caller's identifier, NULL for an anonymous caller. *)
Definition Uid := option string.

(** [auth.uid() = x]; a comparison with NULL never holds. *)
Definition uid_is (uid : Uid) (x : string) : bool :=
  match uid with
  | Some u => (u =? x)%string
  | None => false
  end.

(** Modelled from the spec: [public.has_role(uid, role)] is called by the
    policies but declared elsewhere; it is read as membership in the
    [user_roles] relation that [getUserRole] queries. *)
Definition has_role (s : Store) (uid : Uid) (r : UserRole) : bool :=
  match uid with
  | Some u =>
      existsb (fun p => (fst p =? u)%string && role_eqb (snd p) r)
              (user_roles s)
  | None => false
  end.

(** The caller holds the leader or the admin role. *)
Definition is_manager (s : Store) (uid : Uid) : bool :=
  has_role s uid leader || has_role s uid admin.

(** *** Constraints *)

(** [tsrange(a1, a2, '[]') && tsrange(b1, b2, '[]')]: both bounds
    inclusive. *)
Definition tsrange_overlap (a1 a2 b1 b2 : Z) : bool :=
  (a1 <=? b2) && (b1 <=? a2).

(** The pair of rows that
    [EXCLUDE USING gist (room_id WITH =,
                         tsrange(start_time, end_time, '[]') WITH &&)]
    forbids.  The constraint carries no [WHERE] clause: the status is not
    looked at. *)
Definition excluded_pair (a b : Booking) : bool :=
  (rb_room_id a =? rb_room_id b)%string
  && tsrange_overlap (rb_start_time a) (rb_end_time a)
                     (rb_start_time b) (rb_end_time b).

Definition no_overlapping_bookings (row : Booking) (others : list Booking)
  : bool :=
  forallb (fun o => negb (excluded_pair row o)) others.

(** [CHECK (start_time < end_time)]. *)
Definition valid_booking_time_range (row : Booking) : bool :=
  rb_start_time row <? rb_end_time row.

(** *** Row-level security of [room_bookings]

    Permissive policies of one command are combined with OR. *)

(** SELECT: "Staff can view approved bookings (and own bookings)",
    "Users can view their own pending bookings",
    "Admins and leaders can manage all bookings". *)
Definition select_using (s : Store) (uid : Uid) (r : Booking) : bool :=
  (status_eqb (rb_status r) approved
   || uid_is uid (rb_user_id r)
   || has_role s uid leader
   || has_role s uid admin)
  || (uid_is uid (rb_user_id r)
      || has_role s uid leader
      || has_role s uid admin)
  || (has_role s uid leader || has_role s uid admin).

(** INSERT: "Users can (only) create pending bookings". *)
Definition insert_with_check (uid : Uid) (r : Booking) : bool :=
  uid_is uid (rb_user_id r) && status_eqb (rb_status r) pending.

(** UPDATE: "Users can update own pending bookings",
    "Leaders and admins can update all bookings",
    "Only leaders and admins can approve bookings".  The same expression
    serves as USING (on the old row) and as WITH CHECK (on the new row):
    a policy without WITH CHECK reuses its USING expression. *)
Definition update_policy (s : Store) (uid : Uid) (r : Booking) : bool :=
  (uid_is uid (rb_user_id r) && status_eqb (rb_status r) pending)
  || (has_role s uid leader || has_role s uid admin)
  || ((has_role s uid leader || has_role s uid admin)
      || (uid_is uid (rb_user_id r) && status_eqb (rb_status r) pending)).

(** *** INSERT *)

(** The columns [handleSubmit] sends. *)
Record BookingInsert := mkInsert {
  ins_title : string;
  ins_description : option string;
  ins_room_id : string;
  ins_user_id : string;
  ins_start_time : Z;
  ins_end_time : Z;
  ins_status : BookingStatus
}.

(** The stored row: [newid] is the identifier the store generates; the
    columns that were not sent are NULL. *)
Definition new_row (newid : string) (i : BookingInsert) : Booking :=
  {| rb_id := newid;
     rb_title := ins_title i;
     rb_description := ins_description i;
     rb_room_id := ins_room_id i;
     rb_user_id := ins_user_id i;
     rb_start_time := ins_start_time i;
     rb_end_time := ins_end_time i;
     rb_status := ins_status i;
     rb_updated_at := None;
     rb_approved_by := None;
     rb_approved_at := None |}.

Definition insert (s : Store) (uid : Uid) (newid : string) (i : BookingInsert)
  : Response Store :=
  let row := new_row newid i in
  if negb (insert_with_check uid row) then Fail rls_violation
  else if negb (valid_booking_time_range row) then
    Fail (check_violation "valid_booking_time_range")
  else if existsb (fun o => (rb_id o =? newid)%string) (room_bookings s) then
    Fail (unique_violation "room_bookings_pkey")
  else if negb (no_overlapping_bookings row (room_bookings s)) then
    Fail (exclusion_violation "no_overlapping_bookings")
  else Data (with_bookings s (room_bookings s ++ [row])).

(** *** UPDATE ... WHERE id = target *)

(** The columns the handlers set: [{ status }] on approval and rejection,
    [{ status, updated_at }] on cancellation. *)
Record BookingUpdate := mkUpdate {
  set_status : option BookingStatus;
  set_updated_at : option Z
}.

Definition apply_update (u : BookingUpdate) (r : Booking) : Booking :=
  {| rb_id := rb_id r;
     rb_title := rb_title r;
     rb_description := rb_description r;
     rb_room_id := rb_room_id r;
     rb_user_id := rb_user_id r;
     rb_start_time := rb_start_time r;
     rb_end_time := rb_end_time r;
     rb_status := match set_status u with Some st => st | None => rb_status r end;
     rb_updated_at := match set_updated_at u with
                      | Some t => Some t
                      | None => rb_updated_at r
                      end;
     rb_approved_by := rb_approved_by r;
     rb_approved_at := rb_approved_at r |}.

(** The rows the statement touches: those with the given id that the
    USING policies let the caller see. *)
Definition targeted (s : Store) (uid : Uid) (target : string) (r : Booking)
  : bool :=
  (rb_id r =? target)%string && update_policy s uid r.

Definition updated_rows (s : Store) (uid : Uid) (target : string)
  (u : BookingUpdate)
  : list Booking :=
  map (fun r => if targeted s uid target r then apply_update u r else r)
      (room_bookings s).

Definition others_than (r : Booking) (rows : list Booking) : list Booking :=
  filter (fun o => negb (rb_id o =? rb_id r)%string) rows.

(** A statement that matches no row succeeds and changes nothing. *)
Definition update (s : Store) (uid : Uid) (target : string) (u : BookingUpdate)
  : Response Store :=
  let rows' := updated_rows s uid target u in
  let touched := filter (targeted s uid target) (room_bookings s) in
  if existsb (fun r => negb (update_policy s uid (apply_update u r))) touched
  then Fail rls_violation
  else if existsb (fun r => negb (valid_booking_time_range (apply_update u r)))
                  touched
  then Fail (check_violation "valid_booking_time_range")
  else if existsb (fun r => negb (no_overlapping_bookings
                                    (apply_update u r)
                                    (others_than r rows')))
                  touched
  then Fail (exclusion_violation "no_overlapping_bookings")
  else Data (with_bookings s rows').

(** *** SELECT *)

(** The PostgREST filters the client chains on [room_bookings]. *)
Inductive Filter :=
| eq_room_id (v : string)
| eq_user_id (v : string)
| eq_status (v : BookingStatus)
| neq_id (v : string)
| or_status_eq (vs : list BookingStatus)
| lt_start_time (v : Z)
| gt_end_time (v : Z).

Definition matches (f : Filter) (r : Booking) : bool :=
  match f with
  | eq_room_id v => (rb_room_id r =? v)%string
  | eq_user_id v => (rb_user_id r =? v)%string
  | eq_status v => status_eqb (rb_status r) v
  | neq_id v => negb (rb_id r =? v)%string
  | or_status_eq vs => existsb (status_eqb (rb_status r)) vs
  | lt_start_time v => rb_start_time r <? v
  | gt_end_time v => rb_end_time r >? v
  end.

(** [.order("start_time")] and
    [.order('start_time', { ascending: false })]. *)
Inductive Order := ascending | descending.

Record Query := mkQuery {
  filters : list Filter;
  order_start_time : option Order
}.

Definition goes_before (o : Order) (a b : Booking) : bool :=
  match o with
  | ascending => rb_start_time a <=? rb_start_time b
  | descending => rb_start_time b <=? rb_start_time a
  end.

Fixpoint insert_sorted (o : Order) (r : Booking) (l : list Booking)
  : list Booking :=
  match l with
  | [] => [r]
  | x :: rest =>
      if goes_before o r x then r :: l else x :: insert_sorted o r rest
  end.

Definition sort_rows (o : Order) (l : list Booking) : list Booking :=
  fold_right (insert_sorted o) [] l.

(** Rows visible to the caller that pass every filter; without an ORDER BY
    they come in table order. *)
Definition select (s : Store) (uid : Uid) (q : Query) : list Booking :=
  let rows :=
    filter (fun r => select_using s uid r
                     && forallb (fun f => matches f r) (filters q))
           (room_bookings s) in
  match order_start_time q with
  | Some o => sort_rows o rows
  | None => rows
  end.

(** The embedded resources [meeting_rooms!inner(name)] and
    [profiles!inner(first_name, last_name)]. *)
Record JoinedBooking := mkJoined {
  jb_row : Booking;
  jb_room_name : string;
  jb_first_name : option string;
  jb_last_name : option string
}.

Definition room_of (s : Store) (r : Booking) : option MeetingRoom :=
  find (fun m => (mr_id m =? rb_room_id r)%string) (meeting_rooms s).

Definition profile_of (s : Store) (r : Booking) : option Profile :=
  find (fun p => (pr_id p =? rb_user_id r)%string) (profiles s).

(** An inner join: a booking whose room or requester profile is missing
    is dropped from the result. *)
Definition join (s : Store) (r : Booking) : option JoinedBooking :=
  match room_of s r, profile_of s r with
  | Some m, Some p =>
      Some {| jb_row := r;
              jb_room_name := mr_name m;
              jb_first_name := pr_first_name p;
              jb_last_name := pr_last_name p |}
  | _, _ => None
  end.

Fixpoint filter_map {A B : Type} (f : A -> option B) (l : list A) : list B :=
  match l with
  | [] => []
  | x :: rest =>
      match f x with
      | Some y => y :: filter_map f rest
      | None => filter_map f rest
      end
  end.

Definition select_joined (s : Store) (uid : Uid) (q : Query)
  : list JoinedBooking :=
  filter_map (join s) (select s uid q).

End Pg.

(** ** The client library: requests against the hosted store *)

Module Supabase.

Import Pg.

(** The state of the connection when a request is awaited: the request is
    served, comes back with [{ error }], or the promise rejects. *)
Inductive Link :=
| online
| failing (error : PostgrestError)
| throwing (reason : string).

(** The requests the handlers issue on [room_bookings]. *)
Inductive Request :=
| Select (q : Query)
| Insert (row : BookingInsert)
| Update (u : BookingUpdate) (eq_id : string).

(** The world a handler runs in: the store, the connection, the signed-in
    user ([supabase.auth.getUser()]), the requests sent so far and the time
    zone of the browser, in minutes ahead of UTC. *)
Record World := mkWorld {
  db : Store;
  link : Link;
  user : Uid;
  sent : list Request;
  zone : Z
}.

Definition send (w : World) (r : Request) : World :=
  {| db := db w; link := link w; user := user w; sent := sent w ++ [r];
     zone := zone w |}.

Definition commit (w : World) (s : Store) : World :=
  {| db := s; link := link w; user := user w; sent := sent w;
     zone := zone w |}.

(** [new Date(s)] of a stored timestamp [s], which has no zone: the
    instant at which the wall clock of the browser reads [s]. *)
Definition local_time (w : World) (s : Z) : Z := s - zone w.

(** What [await] yields. *)
Inductive Awaited (A : Type) :=
| Resolved (r : Response A)
| Rejected (reason : string).
Arguments Resolved {A} r.
Arguments Rejected {A} reason.

Definition over_link {A : Type} (w : World) (served : Response A) : Awaited A :=
  match link w with
  | online => Resolved served
  | failing e => Resolved (Fail e)
  | throwing reason => Rejected reason
  end.

(** [await supabase.from("room_bookings").select(...)...]. *)
Definition from_select (w : World) (q : Query) : World * Awaited (list Booking) :=
  (send w (Select q), over_link w (Data (select (db w) (user w) q))).

(** The same with both embedded resources joined in. *)
Definition from_select_joined (w : World) (q : Query)
  : World * Awaited (list JoinedBooking) :=
  (send w (Select q), over_link w (Data (select_joined (db w) (user w) q))).

(** A write reaches the store only over a working connection; the store
    then either commits it or answers with its error. *)
Definition write (w : World) (r : Request) (served : Response Store)
  : World * Awaited unit :=
  let w' := send w r in
  match link w with
  | online =>
      match served with
      | Data s' => (commit w' s', Resolved (Data tt))
      | Fail e => (w', Resolved (Fail e))
      end
  | failing e => (w', Resolved (Fail e))
  | throwing reason => (w', Rejected reason)
  end.

(** [await supabase.from('room_bookings').insert([row])]; [newid] is the
    identifier the store draws for the row. *)
Definition from_insert (w : World) (newid : string) (row : BookingInsert)
  : World * Awaited unit :=
  write w (Insert row) (insert (db w) (user w) newid row).

(** [await supabase.from("room_bookings").update(u).eq("id", target)]. *)
Definition from_update (w : World) (u : BookingUpdate) (target : string)
  : World * Awaited unit :=
  write w (Update u target) (update (db w) (user w) target u).

(** The approvals among a list of requests: the updates that set the
    status to approved. *)
Definition approvals (rs : list Request) : list Request :=
  filter (fun r => match r with
                   | Update u _ =>
                       match set_status u with
                       | Some approved => true
                       | _ => false
                       end
                   | _ => false
                   end) rs.

End Supabase.

(** ** [src/lib/booking-utils.ts] *)

Module BookingUtils.

Import Pg Supabase.

Record ConflictingBooking := mkConflict {
  cb_id : string;
  cb_title : string;
  cb_room_name : string;
  cb_start_time : Z;
  cb_end_time : Z;
  cb_user_name : string
}.

(** [new Date(s)]: an instant, or Invalid Date when [s] does not parse.
    The checkers print the instant with [toISOString()]; the store sets
    its digits against the stored values. *)
Inductive JsDate :=
| Instant (t : Z)
| InvalidDate.

(** The object both checkers build from a returned row. *)
Definition describe (c : JoinedBooking) : ConflictingBooking :=
  {| cb_id := rb_id (jb_row c);
     cb_title := rb_title (jb_row c);
     cb_room_name := jb_room_name c;
     cb_start_time := rb_start_time (jb_row c);
     cb_end_time := rb_end_time (jb_row c);
     cb_user_name := Js.display_name (jb_first_name c) (jb_last_name c) |}.

(** The filter chain of [checkBookingAvailability]. *)
Definition availability_query (roomId : string) (startDateTime endDateTime : Z)
  : Query :=
  {| filters := [ eq_room_id roomId;
                  eq_status approved;
                  lt_start_time endDateTime;
                  gt_end_time startDateTime ];
     order_start_time := None |}.

(** [checkBookingAvailability(roomId, startTime, endTime, excludeBookingId?)]:
    [null] ([None]) if available, the first returned conflict otherwise.
    [toISOString()] throws on an Invalid Date, inside the [try], before any
    request is sent. *)
Definition checkBookingAvailability (w : World) (roomId : string)
  (startTime endTime : JsDate) (excludeBookingId : option string)
  : World * option ConflictingBooking :=
  match startTime, endTime with
  | Instant startDateTime, Instant endDateTime =>
      let (w', res) :=
        from_select_joined w (availability_query roomId startDateTime endDateTime) in
      match res with
      | Resolved (Fail _) => (w', None)
      | Resolved (Data (conflict :: _)) => (w', Some (describe conflict))
      | Resolved (Data []) => (w', None)
      | Rejected _ => (w', None)
      end
  | _, _ => (w, None)
  end.

(** The filter chain of [getConflictingBookings]. *)
Definition conflicts_query (roomId : string) (startDateTime endDateTime : Z)
  (excludeBookingId : string) : Query :=
  {| filters := [ eq_room_id roomId;
                  neq_id excludeBookingId;
                  or_status_eq [approved; pending];
                  lt_start_time endDateTime;
                  gt_end_time startDateTime ];
     order_start_time := None |}.

(** [getConflictingBookings(roomId, startTime, endTime, excludeBookingId)]. *)
Definition getConflictingBookings (w : World) (roomId : string)
  (startTime endTime : JsDate) (excludeBookingId : string)
  : World * list ConflictingBooking :=
  match startTime, endTime with
  | Instant startDateTime, Instant endDateTime =>
      let (w', res) :=
        from_select_joined
          w (conflicts_query roomId startDateTime endDateTime excludeBookingId) in
      match res with
      | Resolved (Fail _) => (w', [])
      | Resolved (Data data) => (w', map describe data)
      | Rejected _ => (w', [])
      end
  | _, _ => (w, [])
  end.

End BookingUtils.

(** ** Toasts ([useToast]) *)

Module Toast.

Inductive Variant := default | destructive.

Record t := mk {
  title : string;
  description : string;
  variant : Variant
}.

End Toast.

(** ** The [AdminApprovalView] component *)

Module AdminApprovalView.

Import Pg Supabase BookingUtils.

Record PendingBooking := mkPending {
  pb_id : string;
  pb_title : string;
  pb_room_id : string;
  pb_room_name : string;
  pb_start_time : Z;
  pb_end_time : Z;
  pb_user_id : string;
  pb_user_name : string;
  pb_description : option string
}.

(** The [useState] cells of the component, the toasts it has raised, and
    the runs of [handleApproveClick] that are suspended at their [await],
    each with the answer its conflict check will resume with. *)
Record State := mkState {
  bookings : list PendingBooking;
  loading : bool;
  selectedBooking : option PendingBooking;
  conflicts : list ConflictingBooking;
  approvalDialogOpen : bool;
  processingBookingId : string;
  toasts : list Toast.t;
  suspended : list (list ConflictingBooking)
}.

Definition initial : State :=
  {| bookings := [];
     loading := true;
     selectedBooking := None;
     conflicts := [];
     approvalDialogOpen := false;
     processingBookingId := EmptyString;
     toasts := [];
     suspended := [] |}.

Definition setBookings (st : State) (v : list PendingBooking) : State :=
  {| bookings := v; loading := loading st;
     selectedBooking := selectedBooking st; conflicts := conflicts st;
     approvalDialogOpen := approvalDialogOpen st;
     processingBookingId := processingBookingId st; toasts := toasts st;
     suspended := suspended st |}.

Definition setLoading (st : State) (v : bool) : State :=
  {| bookings := bookings st; loading := v;
     selectedBooking := selectedBooking st; conflicts := conflicts st;
     approvalDialogOpen := approvalDialogOpen st;
     processingBookingId := processingBookingId st; toasts := toasts st;
     suspended := suspended st |}.

Definition setSelectedBooking (st : State) (v : option PendingBooking) : State :=
  {| bookings := bookings st; loading := loading st;
     selectedBooking := v; conflicts := conflicts st;
     approvalDialogOpen := approvalDialogOpen st;
     processingBookingId := processingBookingId st; toasts := toasts st;
     suspended := suspended st |}.

Definition setConflicts (st : State) (v : list ConflictingBooking) : State :=
  {| bookings := bookings st; loading := loading st;
     selectedBooking := selectedBooking st; conflicts := v;
     approvalDialogOpen := approvalDialogOpen st;
     processingBookingId := processingBookingId st; toasts := toasts st;
     suspended := suspended st |}.

Definition setApprovalDialogOpen (st : State) (v : bool) : State :=
  {| bookings := bookings st; loading := loading st;
     selectedBooking := selectedBooking st; conflicts := conflicts st;
     approvalDialogOpen := v;
     processingBookingId := processingBookingId st; toasts := toasts st;
     suspended := suspended st |}.

Definition setProcessingBookingId (st : State) (v : string) : State :=
  {| bookings := bookings st; loading := loading st;
     selectedBooking := selectedBooking st; conflicts := conflicts st;
     approvalDialogOpen := approvalDialogOpen st;
     processingBookingId := v; toasts := toasts st;
     suspended := suspended st |}.

Definition toast (st : State) (v : Toast.t) : State :=
  {| bookings := bookings st; loading := loading st;
     selectedBooking := selectedBooking st; conflicts := conflicts st;
     approvalDialogOpen := approvalDialogOpen st;
     processingBookingId := processingBookingId st;
     toasts := toasts st ++ [v];
     suspended := suspended st |}.

Definition pending_query : Query :=
  {| filters := [eq_status pending]; order_start_time := Some ascending |}.

Definition format (booking : JoinedBooking) : PendingBooking :=
  {| pb_id := rb_id (jb_row booking);
     pb_title := rb_title (jb_row booking);
     pb_room_id := rb_room_id (jb_row booking);
     pb_room_name := jb_room_name booking;
     pb_start_time := rb_start_time (jb_row booking);
     pb_end_time := rb_end_time (jb_row booking);
     pb_user_id := rb_user_id (jb_row booking);
     pb_user_name :=
       Js.display_name (jb_first_name booking) (jb_last_name booking);
     pb_description := rb_description (jb_row booking) |}.

Definition load_failed : Toast.t :=
  Toast.mk "Error" "Failed to load pending bookings" Toast.destructive.

Definition fetchPendingBookings (w : World) (st : State) : World * State :=
  let st := setLoading st true in
  let (w', res) := from_select_joined w pending_query in
  match res with
  | Resolved (Data data) => (w', setLoading (setBookings st (map format data)) false)
  | Resolved (Fail _) => (w', setLoading (toast st load_failed) false)
  | Rejected _ => (w', setLoading (toast st load_failed) false)
  end.

Definition setSuspended (st : State) (v : list (list ConflictingBooking))
  : State :=
  {| bookings := bookings st; loading := loading st;
     selectedBooking := selectedBooking st; conflicts := conflicts st;
     approvalDialogOpen := approvalDialogOpen st;
     processingBookingId := processingBookingId st; toasts := toasts st;
     suspended := v |}.

(** [handleApproveClick(booking)] up to its [await]: the booking is
    selected and the conflict check is requested; the run is then
    suspended until the answer is delivered, and other handlers may run in
    between.  The answer is fixed when the store serves the request.
    [getConflictingBookings] reads the stored bounds with [new Date] and
    catches every failure itself, so the [catch] branch of this handler is
    never taken. *)
Definition handleApproveClick (w : World) (st : State) (booking : PendingBooking)
  : World * State :=
  let st := setSelectedBooking st (Some booking) in
  let (w', conflictingBookings) :=
    getConflictingBookings w (pb_room_id booking)
                           (Instant (local_time w (pb_start_time booking)))
                           (Instant (local_time w (pb_end_time booking)))
                           (pb_id booking) in
  (w', setSuspended st (suspended st ++ [conflictingBookings])).

(** The rest of [handleApproveClick], run when the awaited answer is
    delivered: it acts on the state of that moment. *)
Definition handleApproveClick_resumed (st : State)
  (conflictingBookings : list ConflictingBooking) : State :=
  setApprovalDialogOpen (setConflicts st conflictingBookings) true.

(** Delivery of the answer awaited by the [k]-th suspended run. *)
Definition resume (st : State) (k : nat) : State :=
  match nth_error (suspended st) k with
  | Some conflictingBookings =>
      handleApproveClick_resumed
        (setSuspended st (firstn k (suspended st) ++ skipn (S k) (suspended st)))
        conflictingBookings
  | None => st
  end.

Definition approved_toast (booking : PendingBooking) : Toast.t :=
  Toast.mk "Success"
           ("Booking " ++ quoted (pb_title booking) ++ " has been approved")%string
           Toast.default.

Definition failure_toast (reason fallback : string) : Toast.t :=
  Toast.mk "Error" (Js.or_else reason fallback) Toast.destructive.

(** [handleApprove()]: the only column written is [status]. *)
Definition handleApprove (w : World) (st : State) : World * State :=
  match selectedBooking st with
  | None => (w, st)
  | Some selected =>
      let st := setProcessingBookingId st (pb_id selected) in
      let (w', res) :=
        from_update w {| set_status := Some approved; set_updated_at := None |}
                    (pb_id selected) in
      match res with
      | Resolved (Data _) =>
          let st := toast st (approved_toast selected) in
          let st := setApprovalDialogOpen st false in
          let st := setSelectedBooking st None in
          let st := setConflicts st [] in
          let st := setProcessingBookingId st EmptyString in
          fetchPendingBookings w' st
      | Resolved (Fail error) =>
          let st := toast st (failure_toast (message error)
                                            "Failed to approve booking") in
          (w', setProcessingBookingId st EmptyString)
      | Rejected reason =>
          let st := toast st (failure_toast reason "Failed to approve booking") in
          (w', setProcessingBookingId st EmptyString)
      end
  end.

Definition rejected_toast : Toast.t :=
  Toast.mk "Success" "Booking has been rejected" Toast.default.

(** [handleReject(bookingId)]. *)
Definition handleReject (w : World) (st : State) (bookingId : string)
  : World * State :=
  let st := setProcessingBookingId st bookingId in
  let (w', res) :=
    from_update w {| set_status := Some rejected; set_updated_at := None |}
                bookingId in
  match res with
  | Resolved (Data _) =>
      let st := toast st rejected_toast in
      fetchPendingBookings w' (setProcessingBookingId st EmptyString)
  | Resolved (Fail error) =>
      let st := toast st (failure_toast (message error)
                                        "Failed to reject booking") in
      (w', setProcessingBookingId st EmptyString)
  | Rejected reason =>
      let st := toast st (failure_toast reason "Failed to reject booking") in
      (w', setProcessingBookingId st EmptyString)
  end.

(** *** What is rendered *)

(** [disabled={processingBookingId !== '' || conflicts.length > 0}] on the
    Approve button of the confirmation dialog. *)
Definition approve_disabled (st : State) : bool :=
  negb (Js.is_empty (processingBookingId st))
  || (0 <? Z.of_nat (List.length (conflicts st))).

(** The conflicts listed under "Conflicting Bookings Found!": rendered when
    the dialog is open, a booking is selected and [conflicts.length > 0]. *)
Definition conflicts_alert (st : State) : list ConflictingBooking :=
  match selectedBooking st with
  | Some _ =>
      if approvalDialogOpen st && (0 <? Z.of_nat (List.length (conflicts st)))
      then conflicts st else []
  | None => []
  end.

(** The green "No conflicts detected. Safe to approve." panel. *)
Definition safe_to_approve_panel (st : State) : bool :=
  match selectedBooking st with
  | Some _ =>
      approvalDialogOpen st && (Z.of_nat (List.length (conflicts st)) =? 0)
  | None => false
  end.

(** *** User actions *)

(** The cards and the dialog are rendered once the list is loaded and is
    not empty. *)
Definition rendered (st : State) : bool :=
  negb (loading st)
  && match bookings st with [] => false | _ :: _ => true end.

(** Clicks on the Approve and Reject buttons of the [i]-th card and on the
    two buttons of the confirmation dialog, and the delivery of an awaited
    answer. *)
Inductive Action :=
| clickApprove (i : nat)
| clickReject (i : nat)
| clickDialogApprove
| clickDialogCancel
| answerArrives (k : nat).

(** A click reaches its handler only when the control is rendered and
    enabled.  The buttons of a card are disabled only while that very
    booking is being processed, so a card can be clicked while a run of
    [handleApproveClick] is suspended. *)
Definition act (w : World) (st : State) (a : Action) : World * State :=
  match a with
  | clickApprove i =>
      match nth_error (bookings st) i with
      | Some booking =>
          if rendered st
             && negb (processingBookingId st =? pb_id booking)%string
          then handleApproveClick w st booking else (w, st)
      | None => (w, st)
      end
  | clickReject i =>
      match nth_error (bookings st) i with
      | Some booking =>
          if rendered st
             && negb (processingBookingId st =? pb_id booking)%string
          then handleReject w st (pb_id booking) else (w, st)
      | None => (w, st)
      end
  | clickDialogApprove =>
      if rendered st && approvalDialogOpen st && negb (approve_disabled st)
      then handleApprove w st else (w, st)
  | clickDialogCancel =>
      if rendered st && approvalDialogOpen st
      then (w, setApprovalDialogOpen st false) else (w, st)
  | answerArrives k => (w, resume st k)
  end.

(** A sequence of actions, each running to its end or to its [await]
    before the next. *)
Fixpoint run (w : World) (st : State) (actions : list Action)
  : World * State :=
  match actions with
  | [] => (w, st)
  | a :: rest => let (w', st') := act w st a in run w' st' rest
  end.

End AdminApprovalView.

(** ** The [MyBookings] component *)

Module MyBookings.

Import Pg Supabase.

(** A row of [select('*, meeting_rooms:room_id (name, capacity)')]. *)
Record Booking := mkBooking {
  row : Pg.Booking;
  meeting_rooms : option (string * Z)
}.

Record State := mkState {
  bookings : list Booking;
  loading : bool;
  cancelingId : option string;
  toasts : list Toast.t
}.

Definition initial : State :=
  {| bookings := []; loading := true; cancelingId := None; toasts := [] |}.

Definition setBookings (st : State) (v : list Booking) : State :=
  {| bookings := v; loading := loading st;
     cancelingId := cancelingId st; toasts := toasts st |}.

Definition setLoading (st : State) (v : bool) : State :=
  {| bookings := bookings st; loading := v;
     cancelingId := cancelingId st; toasts := toasts st |}.

Definition setCancelingId (st : State) (v : option string) : State :=
  {| bookings := bookings st; loading := loading st;
     cancelingId := v; toasts := toasts st |}.

Definition toast (st : State) (v : Toast.t) : State :=
  {| bookings := bookings st; loading := loading st;
     cancelingId := cancelingId st; toasts := toasts st ++ [v] |}.

Definition own_query (userId : string) : Query :=
  {| filters := [eq_user_id userId]; order_start_time := Some descending |}.

Definition with_room (s : Store) (r : Pg.Booking) : Booking :=
  {| row := r;
     meeting_rooms :=
       match room_of s r with
       | Some m => Some (mr_name m, mr_capacity m)
       | None => None
       end |}.

Definition load_failed : Toast.t :=
  Toast.mk "Error" "Failed to load bookings" Toast.destructive.

Definition loadBookings (w : World) (st : State) : World * State :=
  match user w with
  | None => (w, setLoading st false)
  | Some userId =>
      let (w', res) := from_select w (own_query userId) in
      match res with
      | Resolved (Data data) =>
          (w', setLoading (setBookings st (map (with_room (db w)) data)) false)
      | Resolved (Fail _) => (w', setLoading (toast st load_failed) false)
      | Rejected _ => (w', setLoading (toast st load_failed) false)
      end
  end.

Definition cancelled_toast : Toast.t :=
  Toast.mk "Success" "Booking cancelled successfully" Toast.default.

Definition cancel_failed : Toast.t :=
  Toast.mk "Error" "Failed to cancel booking" Toast.destructive.

(** [handleCancel(bookingId)] at time [now]: the statement carries no
    condition on the current status of the row. *)
Definition handleCancel (now : Z) (w : World) (st : State) (bookingId : string)
  : World * State :=
  let (w', res) :=
    from_update w {| set_status := Some cancelled; set_updated_at := Some now |}
                bookingId in
  match res with
  | Resolved (Data _) =>
      loadBookings w' (setCancelingId (toast st cancelled_toast) None)
  | Resolved (Fail _) => (w', toast st cancel_failed)
  | Rejected _ => (w', toast st cancel_failed)
  end.

(** [isPast(date)] of date-fns. *)
Definition isPast (now date : Z) : bool := date <? now.

(** [new Date(booking.end_time)] in a browser [zone] minutes ahead of
    UTC. *)
Definition ends (zone : Z) (b : Booking) : Z := rb_end_time (row b) - zone.

Definition getUpcomingBookings (zone now : Z) (st : State) : list Booking :=
  filter (fun b => negb (isPast now (ends zone b))
                   && negb (status_eqb (rb_status (row b)) cancelled))
         (bookings st).

Definition getPastBookings (zone now : Z) (st : State) : list Booking :=
  filter (fun b => isPast now (ends zone b)
                   || status_eqb (rb_status (row b)) cancelled)
         (bookings st).

(** The cancel button of a row of the Upcoming table:
    [booking.status !== 'cancelled' && !isPast(new Date(booking.end_time))]. *)
Definition cancel_button (zone now : Z) (b : Booking) : bool :=
  negb (status_eqb (rb_status (row b)) cancelled)
  && negb (isPast now (ends zone b)).

(** A click on the cancel button of the [i]-th row of the Upcoming table,
    and the two buttons of the "Cancel Booking?" dialog. *)
Inductive Action :=
| clickCancel (i : nat)
| confirmCancel
| keepBooking.

Definition act (now : Z) (w : World) (st : State) (a : Action) : World * State :=
  if loading st then (w, st)
  else
    match a with
    | clickCancel i =>
        match nth_error (getUpcomingBookings (zone w) now st) i with
        | Some booking =>
            if cancel_button (zone w) now booking
            then (w, setCancelingId st (Some (rb_id (row booking))))
            else (w, st)
        | None => (w, st)
        end
    | confirmCancel =>
        match cancelingId st with
        | Some bookingId => handleCancel now w st bookingId
        | None => (w, st)
        end
    | keepBooking => (w, setCancelingId st None)
    end.

End MyBookings.

(** ** The [CreateBookingDialog] component (the one that pre-checks
    availability) *)

Module CreateBookingDialog.

Import Pg Supabase BookingUtils.

Definition minutes_per_day : Z := 1440.

Definition two_digits (n : Z) : string :=
  let digit d := String (ascii_of_nat (48 + Z.to_nat d)) EmptyString in
  (digit (n / 10 mod 10) ++ digit (n mod 10))%string.

Definition clock (t : Z) : string :=
  let m := t mod minutes_per_day in
  (two_digits (m / 60) ++ ":" ++ two_digits (m mod 60))%string.

(** [formatTimeRange] of [booking-utils.ts]: [HH:MM - HH:MM]. *)
Definition formatTimeRange (startTime endTime : Z) : string :=
  (clock startTime ++ " - " ++ clock endTime)%string.

(** The form.  A date input holds nothing or a day, given by its midnight
    in minutes (a multiple of [minutes_per_day]); a time input holds
    nothing or minutes after midnight. *)
Record State := mkState {
  title : string;
  description : string;
  roomId : string;
  startDate : option Z;
  startTime : option Z;
  endDate : option Z;
  endTime : option Z;
  loading : bool;
  validationError : string;
  conflictingBooking : option ConflictingBooking;
  checkingAvailability : bool;
  dialogOpen : bool;
  toasts : list Toast.t
}.

Definition setValidationError (st : State) (v : string) : State :=
  {| title := title st; description := description st; roomId := roomId st;
     startDate := startDate st; startTime := startTime st;
     endDate := endDate st; endTime := endTime st;
     loading := loading st; validationError := v;
     conflictingBooking := conflictingBooking st;
     checkingAvailability := checkingAvailability st;
     dialogOpen := dialogOpen st; toasts := toasts st |}.

Definition setConflictingBooking (st : State) (v : option ConflictingBooking)
  : State :=
  {| title := title st; description := description st; roomId := roomId st;
     startDate := startDate st; startTime := startTime st;
     endDate := endDate st; endTime := endTime st;
     loading := loading st; validationError := validationError st;
     conflictingBooking := v;
     checkingAvailability := checkingAvailability st;
     dialogOpen := dialogOpen st; toasts := toasts st |}.

Definition setCheckingAvailability (st : State) (v : bool) : State :=
  {| title := title st; description := description st; roomId := roomId st;
     startDate := startDate st; startTime := startTime st;
     endDate := endDate st; endTime := endTime st;
     loading := loading st; validationError := validationError st;
     conflictingBooking := conflictingBooking st;
     checkingAvailability := v;
     dialogOpen := dialogOpen st; toasts := toasts st |}.

Definition setLoading (st : State) (v : bool) : State :=
  {| title := title st; description := description st; roomId := roomId st;
     startDate := startDate st; startTime := startTime st;
     endDate := endDate st; endTime := endTime st;
     loading := v; validationError := validationError st;
     conflictingBooking := conflictingBooking st;
     checkingAvailability := checkingAvailability st;
     dialogOpen := dialogOpen st; toasts := toasts st |}.

Definition toast (st : State) (v : Toast.t) : State :=
  {| title := title st; description := description st; roomId := roomId st;
     startDate := startDate st; startTime := startTime st;
     endDate := endDate st; endTime := endTime st;
     loading := loading st; validationError := validationError st;
     conflictingBooking := conflictingBooking st;
     checkingAvailability := checkingAvailability st;
     dialogOpen := dialogOpen st; toasts := toasts st ++ [v] |}.

(** [onOpenChange(false)] followed by [resetForm()]. *)
Definition close_and_reset (st : State) : State :=
  {| title := EmptyString; description := EmptyString; roomId := EmptyString;
     startDate := None; startTime := None; endDate := None; endTime := None;
     loading := loading st; validationError := EmptyString;
     conflictingBooking := None;
     checkingAvailability := checkingAvailability st;
     dialogOpen := false; toasts := toasts st |}.

(** [new Date(`${date}T${time}`)] in a browser [zone] minutes ahead of UTC:
    the string has no zone and is read on the wall clock of the browser. *)
Definition datetime (zone : Z) (date time : option Z) : JsDate :=
  match date, time with
  | Some d, Some t => Instant (d + t - zone)
  | _, _ => InvalidDate
  end.

(** [checkAvailability(roomId, startDate, startTime)], run (debounced) when
    the room or one of the four date and time inputs changes. *)
Definition checkAvailability (w : World) (st : State) : World * State :=
  if Js.is_empty (roomId st) then (w, setConflictingBooking st None)
  else
    match startDate st, startTime st with
    | Some _, Some _ =>
        let st := setCheckingAvailability st true in
        match endTime st with
        | None =>
            (w, setCheckingAvailability (setConflictingBooking st None) false)
        | Some _ =>
            let (w', conflict) :=
              checkBookingAvailability w (roomId st)
                                       (datetime (zone w) (startDate st)
                                                 (startTime st))
                                       (datetime (zone w) (endDate st)
                                                 (endTime st))
                                       None in
            (w', setCheckingAvailability (setConflictingBooking st conflict) false)
        end
    | _, _ => (w, setConflictingBooking st None)
    end.

Definition already_booked (c : ConflictingBooking) : string :=
  ("Room already booked: " ++ quoted (cb_title c) ++ " from "
     ++ formatTimeRange (cb_start_time c) (cb_end_time c))%string.

(** [validateForm()] at the instant [now], in a browser [zone] minutes ahead
    of UTC: the message it sets, or none when the form may be submitted.
    [new Date(y, m, d)] is midnight on the wall clock of the browser;
    [new Date(startDate)], of a date without a time, is midnight UTC. *)
Definition validation_message (zone now : Z) (st : State) : option string :=
  if Js.is_empty (Js.trim (title st)) then Some "Meeting title is required"%string
  else if Js.is_empty (roomId st) then Some "Please select a room"%string
  else
    match startDate st, startTime st with
    | Some sd, Some stt =>
        match endDate st, endTime st with
        | Some ed, Some et =>
            let startDateTime := sd + stt - zone in
            let endDateTime := ed + et - zone in
            let startOfToday :=
              (now + zone) - (now + zone) mod minutes_per_day - zone in
            let startOfSelectedDay := sd in
            if startDateTime >=? endDateTime
            then Some "End time must be after start time"%string
            else if startOfSelectedDay <? startOfToday
            then Some "Cannot book for past dates"%string
            else if (startOfSelectedDay =? startOfToday) && (startDateTime <? now)
            then Some "Cannot book for past times today"%string
            else match conflictingBooking st with
                 | Some c => Some (already_booked c)
                 | None => None
                 end
        | _, _ => Some "End date and time are required"%string
        end
    | _, _ => Some "Start date and time are required"%string
    end.

Definition validateForm (zone now : Z) (st : State) : State * bool :=
  match validation_message zone now st with
  | Some msg => (setValidationError st msg, false)
  | None => (setValidationError st EmptyString, true)
  end.

Definition conflict_toast : Toast.t :=
  Toast.mk "Booking Conflict"
           "This room is already booked for the selected time. Please choose a different time or room."
           Toast.destructive.

Definition error_toast (description : string) : Toast.t :=
  Toast.mk "Error" description Toast.destructive.

Definition success_toast : Toast.t :=
  Toast.mk "Success" "Room booked successfully" Toast.default.

(** The test [handleSubmit] applies to the error of a failed insert. *)
Definition is_conflict (error : PostgrestError) : bool :=
  let errorMsg := Js.or_else (message error) "Unknown error" in
  let errorCode := code error in
  Js.includes errorMsg "overlapping"
  || Js.includes errorMsg "conflict"
  || (errorCode =? "23P01")%string.

(** The toast [handleSubmit] raises for the error of a failed insert. *)
Definition insert_error_toast (error : PostgrestError) : Toast.t :=
  let errorMsg := Js.or_else (message error) "Unknown error" in
  if is_conflict error then conflict_toast
  else error_toast (Js.or_else errorMsg "Failed to create booking").

(** [`${date}T${time}:00`], the zone-less string [handleSubmit] sends for a
    bound; both inputs are set once the form is validated. *)
Definition wall_clock (date time : option Z) : Z :=
  match date, time with
  | Some d, Some t => d + t
  | _, _ => 0
  end.

(** The row [handleSubmit] inserts. *)
Definition submitted_row (userId : string) (st : State) : BookingInsert :=
  {| ins_title := Js.trim (title st);
     ins_description :=
       if Js.is_empty (Js.trim (description st)) then None
       else Some (Js.trim (description st));
     ins_room_id := roomId st;
     ins_user_id := userId;
     ins_start_time := wall_clock (startDate st) (startTime st);
     ins_end_time := wall_clock (endDate st) (endTime st);
     ins_status := pending |}.

(** [handleSubmit(e)] at time [now]; [newid] is the identifier the store
    draws if it accepts the row. *)
Definition handleSubmit (now : Z) (newid : string) (w : World) (st : State)
  : World * State :=
  let (st, ok) := validateForm (zone w) now st in
  if negb ok then (w, st)
  else
    let st := setLoading st true in
    match user w with
    | None => (w, setLoading (toast st (error_toast "Not authenticated")) false)
    | Some userId =>
        let (w', res) := from_insert w newid (submitted_row userId st) in
        match res with
        | Resolved (Fail error) =>
            (w', setLoading (toast st (insert_error_toast error)) false)
        | Resolved (Data _) =>
            (w', setLoading (close_and_reset (toast st success_toast)) false)
        | Rejected reason =>
            (w', setLoading
                   (toast st (error_toast
                                (Js.or_else reason "Failed to create booking")))
                   false)
        end
    end.

End CreateBookingDialog.

(** ** The booking table as a state machine *)

Module Table.

Import Pg.

(** The half-open overlap of two intervals, in the words of the
    specification: [a_start < b_end AND b_start < a_end]. *)
Definition overlap (a_start a_end b_start b_end : Z) : bool :=
  (a_start <? b_end) && (b_start <? a_end).

Definition intervals_overlap (a b : Booking) : bool :=
  overlap (rb_start_time a) (rb_end_time a) (rb_start_time b) (rb_end_time b).

(** The invariant of the data model: no two approved bookings of one room
    have overlapping intervals.  Two bookings are two positions of the
    table. *)
Definition approved_disjoint (rows : list Booking) : Prop :=
  forall (i j : nat) (a b : Booking),
    i <> j ->
    nth_error rows i = Some a ->
    nth_error rows j = Some b ->
    rb_room_id a = rb_room_id b ->
    rb_status a = approved ->
    rb_status b = approved ->
    intervals_overlap a b = false.

(** What the primary key, [valid_booking_time_range] and
    [no_overlapping_bookings] guarantee of a table. *)
Record constraints_hold (rows : list Booking) : Prop := {
  pkey : NoDup (map rb_id rows);
  time_ranges : forall r, In r rows -> valid_booking_time_range r = true;
  exclusion : forall a b, In a rows -> In b rows ->
                          rb_id a <> rb_id b -> excluded_pair a b = false
}.

(** The statements that write to [room_bookings]. *)
Inductive Statement :=
| INSERT (uid : Uid) (newid : string) (row : BookingInsert)
| UPDATE (uid : Uid) (target : string) (u : BookingUpdate).

Definition run (s : Store) (st : Statement) : Response Store :=
  match st with
  | INSERT uid newid row => insert s uid newid row
  | UPDATE uid target u => update s uid target u
  end.

(** The table the statement would leave behind if it were committed. *)
Definition outcome (s : Store) (st : Statement) : list Booking :=
  match st with
  | INSERT uid newid row => room_bookings s ++ [new_row newid row]
  | UPDATE uid target u => updated_rows s uid target u
  end.

(** The states of the store: the table as it stood when the constraints
    were added (they are validated against the rows present), then any
    committed statement, and any change to the other relations. *)
Inductive reachable : Store -> Prop :=
| reach_validated : forall s,
    constraints_hold (room_bookings s) -> reachable s
| reach_commit : forall s st s',
    reachable s -> run s st = Data s' -> reachable s'
| reach_elsewhere : forall s s',
    reachable s -> room_bookings s' = room_bookings s -> reachable s'.

(** The rows a conflict check with blocking statuses [statuses] is meant to
    find, in the words of the specification: same room, a blocking status,
    not the excluded booking, and an interval that overlaps the
    candidate's. *)
Definition conflicting (roomId : string) (startTime endTime : Z)
  (exclude : option string) (statuses : list BookingStatus) (r : Booking)
  : bool :=
  (rb_room_id r =? roomId)%string
  && existsb (status_eqb (rb_status r)) statuses
  && match exclude with
     | Some x => negb (rb_id r =? x)%string
     | None => true
     end
  && overlap (rb_start_time r) (rb_end_time r) startTime endTime.

(** The conflicts a check should report to caller [uid]: the conflicting
    rows the caller may see, in table order, with the room and the
    requester joined in. *)
Definition found (s : Store) (uid : Uid) (roomId : string)
  (startTime endTime : Z) (exclude : option string)
  (statuses : list BookingStatus) : list JoinedBooking :=
  filter_map (join s)
             (filter (fun r => select_using s uid r
                               && conflicting roomId startTime endTime
                                              exclude statuses r)
                     (room_bookings s)).

End Table.

(** ** Sample data *)

Module Sample.

Import Pg Supabase BookingUtils.

(** Minutes after midnight of the day at instant 0. *)
Definition at_ (h m : Z) : Z := h * 60 + m.

Definition room_x : MeetingRoom := mkRoom "room-x" "Room X" 8 true.

Definition alice : Profile := mkProfile "alice" (Some "Alice"%string) (Some "Ng"%string).
Definition bob : Profile := mkProfile "bob" (Some "Bob"%string) None.
Definition carol : Profile := mkProfile "carol" (Some "Carol"%string) (Some "Le"%string).

(** carol is an admin; alice and bob hold no role row. *)
Definition roles : list (string * UserRole) := [("carol"%string, admin)].

Definition booking (id_ who : string) (from to : Z) (st : BookingStatus)
  : Booking :=
  mkBooking id_ ("Meeting " ++ id_)%string None "room-x" who from to st
            None None None.

Definition store (rows : list Booking) : Store :=
  mkStore rows [room_x] [alice; bob; carol] roles.

Definition world (rows : list Booking) (l : Link) (who : string) : World :=
  mkWorld (store rows) l (Some who) [] 0.

(** R1: alice's approved booking of room X, 10:00 to 11:00. *)
Definition r1 : Booking := booking "r1" "alice" (at_ 10 0) (at_ 11 0) approved.

(** P1: alice's pending booking of room X, 10:00 to 11:00. *)
Definition p1 : Booking := booking "p1" "alice" (at_ 10 0) (at_ 11 0) pending.

(** R2: bob's approved booking of room X, 13:00 to 14:00. *)
Definition r2 : Booking := booking "r2" "bob" (at_ 13 0) (at_ 14 0) approved.

(** C1: carol's own approved booking of room X, 15:00 to 16:00. *)
Definition c1 : Booking := booking "c1" "carol" (at_ 15 0) (at_ 16 0) approved.

Definition network_down : PostgrestError :=
  mkError "TypeError: Failed to fetch" EmptyString.

(** bob's request for room X from 10:00 to 11:00. *)
Definition bob_request : BookingInsert :=
  mkInsert "Standup" None "room-x" "bob" (at_ 10 0) (at_ 11 0) pending.

(** bob's form for the same request, filled in at 08:00 of day 0. *)
Definition bob_form : CreateBookingDialog.State :=
  CreateBookingDialog.mkState
    "Standup" EmptyString "room-x"
    (Some 0) (Some (at_ 10 0)) (Some 0) (Some (at_ 11 0))
    false EmptyString None false true [].

(** alice's request that, once approved, is R1. *)
Definition alice_request : BookingInsert :=
  mkInsert "Meeting r1" None "room-x" "alice" (at_ 10 0) (at_ 11 0) pending.

(** A row that claims to be approved already, 10:30 to 11:30 in room X. *)
Definition approved_request : BookingInsert :=
  mkInsert "Workshop" None "room-x" "bob" (at_ 10 30) (at_ 11 30) approved.

Definition approve : BookingUpdate := mkUpdate (Some approved) None.

(** A pending booking as the approval view lists it. *)
Definition listed (b : Booking) : AdminApprovalView.PendingBooking :=
  AdminApprovalView.mkPending
    (rb_id b) (rb_title b) (rb_room_id b) "Room X"
    (rb_start_time b) (rb_end_time b) (rb_user_id b) "Someone"
    (rb_description b).

(** bob's request for room X from 11:00 to 12:00, right after R1. *)
Definition touching_request : BookingInsert :=
  mkInsert "Retro" None "room-x" "bob" (at_ 11 0) (at_ 12 0) pending.

(** P2: bob's pending booking of room X, 10:30 to 11:30. *)
Definition p2 : Booking := booking "p2" "bob" (at_ 10 30) (at_ 11 30) pending.

(** The approval view once its list is loaded. *)
Definition approval_view (pendings : list Booking) : AdminApprovalView.State :=
  AdminApprovalView.setLoading
    (AdminApprovalView.setBookings AdminApprovalView.initial
                                   (map listed pendings))
    false.

(** The approval view with the confirmation dialog open on [b] and no
    conflict listed. *)
Definition confirming (b : Booking) : AdminApprovalView.State :=
  AdminApprovalView.setApprovalDialogOpen
    (AdminApprovalView.setSelectedBooking (approval_view [b])
                                          (Some (listed b)))
    true.

(** carol opens "My Bookings" at 08:00, clicks the cancel button of the
    first upcoming row and confirms. *)
Definition carol_cancels (rows : list Booking) : World * MyBookings.State :=
  let now := at_ 8 0 in
  let (w1, s1) :=
    MyBookings.loadBookings (world rows online "carol") MyBookings.initial in
  let (w2, s2) := MyBookings.act now w1 s1 (MyBookings.clickCancel 0) in
  MyBookings.act now w2 s2 MyBookings.confirmCancel.

End Sample.

(** ** The [BookingCalendarView] component *)

Module BookingCalendarView.

Import Pg Supabase.

Record Booking := mkBooking {
  cv_id : string;
  cv_title : string;
  cv_room_id : string;
  cv_room_name : string;
  cv_start_time : Z;
  cv_end_time : Z;
  cv_status : BookingStatus;
  cv_user_id : string;
  cv_user_name : string
}.

(** [weekStart] is the instant at which the displayed week begins, a
    midnight on the clock of the browser; [selectedRoom] is ["all"] or the
    id of a room. *)
Record State := mkState {
  weekStart : Z;
  bookings : list Booking;
  selectedRoom : string;
  loading : bool
}.

Definition day : Z := 1440.

(** [addDays(weekStart, i)], for [i] from 0 to 6. *)
Definition weekDays (st : State) : list Z :=
  map (fun i => weekStart st + Z.of_nat i * day) (seq 0 7).

(** The filters of [fetchBookings]: approved, starting within the seven
    days from [weekStart] as [toISOString()] prints it, and of the selected
    room unless all rooms are shown. *)
Definition in_week (st : State) (r : Pg.Booking) : bool :=
  status_eqb (rb_status r) approved
  && (weekStart st <=? rb_start_time r)
  && (rb_start_time r <? weekStart st + 7 * day)
  && (if (selectedRoom st =? "all")%string then true
      else (rb_room_id r =? selectedRoom st)%string).

Definition format (booking : JoinedBooking) : Booking :=
  {| cv_id := rb_id (jb_row booking);
     cv_title := rb_title (jb_row booking);
     cv_room_id := rb_room_id (jb_row booking);
     cv_room_name := jb_room_name booking;
     cv_start_time := rb_start_time (jb_row booking);
     cv_end_time := rb_end_time (jb_row booking);
     cv_status := rb_status (jb_row booking);
     cv_user_id := rb_user_id (jb_row booking);
     cv_user_name :=
       Js.display_name (jb_first_name booking) (jb_last_name booking) |}.

(** The rows the query of [fetchBookings] yields when it is served. *)
Definition week_rows (s : Store) (uid : Uid) (st : State) : list JoinedBooking :=
  filter_map (join s)
             (filter (fun r => select_using s uid r && in_week st r)
                     (room_bookings s)).

(** [fetchBookings()]: a failure is logged to the console only, and the
    list shown so far stays.  The request log of the world is kept for the
    booking workflow and is not extended here. *)
Definition fetchBookings (w : World) (st : State) : State :=
  match over_link w (Data (week_rows (db w) (user w) st)) with
  | Resolved (Data data) =>
      {| weekStart := weekStart st; bookings := map format data;
         selectedRoom := selectedRoom st; loading := false |}
  | Resolved (Fail _) | Rejected _ =>
      {| weekStart := weekStart st; bookings := bookings st;
         selectedRoom := selectedRoom st; loading := false |}
  end.

(** The midnight with which the day of instant [date] began on the clock
    of a browser [zone] minutes ahead of UTC. *)
Definition startOfDay (zone date : Z) : Z :=
  (date + zone) - (date + zone) mod day - zone.

(** [date.setHours(hour, 0, 0, 0)]. *)
Definition setHours (zone date hour : Z) : Z :=
  startOfDay zone date + hour * 60.

(** [getBookingForSlot(roomId, date, hour)]; the bounds of a booking are
    read with [new Date]. *)
Definition getBookingForSlot (zone : Z) (st : State) (roomId : string)
  (date hour : Z) : option Booking :=
  let slotStart := setHours zone date hour in
  let slotEnd := setHours zone slotStart (hour + 1) in
  find (fun booking =>
          (cv_room_id booking =? roomId)%string
          && (cv_start_time booking - zone <? slotEnd)
          && (cv_end_time booking - zone >? slotStart))
       (bookings st).

(** [isSameDay(a, b)] of date-fns. *)
Definition isSameDay (zone a b : Z) : bool :=
  (startOfDay zone a =? startOfDay zone b).

(** The bookings listed under a room on a day of the day view. *)
Definition dayBookings (zone : Z) (st : State) (roomId : string) (d : Z)
  : list Booking :=
  filter (fun b => (cv_room_id b =? roomId)%string
                   && isSameDay zone (cv_start_time b - zone) d)
         (bookings st).

(** [handlePrevWeek] and [handleNextWeek]. *)
Definition handlePrevWeek (st : State) : State :=
  {| weekStart := weekStart st - 7 * day; bookings := bookings st;
     selectedRoom := selectedRoom st; loading := loading st |}.

Definition handleNextWeek (st : State) : State :=
  {| weekStart := weekStart st + 7 * day; bookings := bookings st;
     selectedRoom := selectedRoom st; loading := loading st |}.

End BookingCalendarView.

(** ** [src/lib/auth.ts] and the [MeetingRooms] page *)

Module Auth.

Import Pg Supabase.

(** How an [async] function without a [try] ends. *)
Inductive Completion (A : Type) :=
| Returned (a : A)
| Threw (reason : string).
Arguments Returned {A} a.
Arguments Threw {A} reason.

(** [.single()]: the row when there is exactly one, an error otherwise. *)
Definition single {A : Type} (rows : list A) : option A :=
  match rows with
  | [x] => Some x
  | _ => None
  end.

(** [getUserRole(userId)].  The read policy of [user_roles] is declared
    elsewhere and is taken as the parameter [readable]. *)
Definition getUserRole (readable : string * UserRole -> bool) (w : World)
  (userId : string) : Completion UserRole :=
  match link w with
  | online =>
      match single (filter (fun p => readable p && (fst p =? userId)%string)
                           (user_roles (db w))) with
      | Some p => Returned (snd p)
      | None => Returned staff
      end
  | failing _ => Returned staff
  | throwing reason => Threw reason
  end.

(** The [role] state of [MeetingRooms] after [loadRole()]; it starts as
    [staff] and stays so when nobody is signed in or the call throws. *)
Definition loadRole (readable : string * UserRole -> bool) (w : World)
  : UserRole :=
  match user w with
  | None => staff
  | Some userId =>
      match getUserRole readable w userId with
      | Returned userRole => userRole
      | Threw _ => staff
      end
  end.

(** [(role === 'admin' || role === 'leader')], the condition under which
    the Approvals tab and [AdminApprovalView] are rendered. *)
Definition approvals_tab (role : UserRole) : bool :=
  role_eqb role admin || role_eqb role leader.

End Auth.

(** ** Column positions of the task board ([TaskBoardEnhanced]) *)

Module TaskBoard.

Record TaskColumn := mkColumn {
  tc_id : string;
  tc_name : string;
  tc_position : Z;
  tc_is_default : bool;
  tc_board_id : string
}.

(** [Math.max(...columns.map(c => c.position), -1) + 1]. *)
Definition newPosition (columns : list TaskColumn) : Z :=
  fold_right Z.max (-1) (map tc_position columns) + 1.

(** The row [handleCreateColumn] inserts, or nothing when the name is
    blank (the handler then shows "Column name is required"). *)
Definition column_to_create (boardId name : string) (columns : list TaskColumn)
  : option (string * string * Z * bool) :=
  if Js.is_empty (Js.trim name) then None
  else Some (boardId, name, newPosition columns, false).

End TaskBoard.

(** ** The order requested by [.order("start_time")] *)

Module RowOrder.

Import Pg.

(** [a] may come before [b] in a list ordered by start time. *)
Definition before (o : Order) (a b : Booking) : Prop := goes_before o a b = true.

End RowOrder.

(** ** Sessions and further sample data *)

Module Session.

Import Pg Supabase.

(** The same world with another caller signed in. *)
Definition signed_in (w : World) (uid : Uid) : World :=
  {| db := db w; link := link w; user := uid; sent := sent w;
     zone := zone w |}.

(** C2: carol's cancelled booking of room X, 10:00 to 11:00. *)
Definition cancelled_c2 : Booking :=
  Sample.booking "c2" "carol" (Sample.at_ 10 0) (Sample.at_ 11 0) cancelled.

(** The calendar on the week that starts at instant 0, all rooms. *)
Definition calendar : BookingCalendarView.State :=
  BookingCalendarView.mkState 0 [] "all" true.

(** alice's own "My Bookings" list once loaded. *)
Definition my_view (rows : list Booking) (who : string) : MyBookings.State :=
  snd (MyBookings.loadBookings (Sample.world rows online who)
                               MyBookings.initial).

(** bob's form with the end time filled in and the end date left empty. *)
Definition half_filled_form : CreateBookingDialog.State :=
  CreateBookingDialog.mkState
    "Standup" EmptyString "room-x"
    (Some 0) (Some (Sample.at_ 10 30)) None (Some (Sample.at_ 11 30))
    false EmptyString None false true [].

(** The same world seen from a browser [z] minutes ahead of UTC. *)
Definition in_zone (w : World) (z : Z) : World :=
  {| db := db w; link := link w; user := user w; sent := sent w;
     zone := z |}.

(** E1: alice's approved booking of room X, 03:30 to 04:30. *)
Definition e1 : Booking :=
  Sample.booking "e1" "alice" (Sample.at_ 3 30) (Sample.at_ 4 30) approved.

(** P3: bob's pending booking of room X, 14:00 to 15:00. *)
Definition p3 : Booking :=
  Sample.booking "p3" "bob" (Sample.at_ 14 0) (Sample.at_ 15 0) pending.

(** carol, in a browser seven hours ahead of UTC, with the list of pending
    bookings loaded: P1 on the first card, P3 on the second. *)
Definition carol_abroad : World :=
  in_zone (Sample.world [e1; Sample.p1; p3] online "carol") 420.

Definition two_cards : AdminApprovalView.State :=
  Sample.approval_view [Sample.p1; p3].

(** Approve is clicked on the [i]-th card and then, before the conflict
    check of that click is answered, on the [j]-th; the first answer is
    delivered and Approve is clicked in the dialog. *)
Definition two_quick_clicks (i j : nat) : list AdminApprovalView.Action :=
  [ AdminApprovalView.clickApprove i;
    AdminApprovalView.clickApprove j;
    AdminApprovalView.answerArrives 0;
    AdminApprovalView.clickDialogApprove ].

End Session.

(** * Properties *)

(** ** The constraints are kept by every committed statement *)

Module TableFacts.

Import Pg Table.

Lemma tsrange_overlap_sym (a1 a2 b1 b2 : Z) :
  tsrange_overlap a1 a2 b1 b2 = tsrange_overlap b1 b2 a1 a2.
Proof. unfold tsrange_overlap. apply andb_comm. Qed.

Lemma excluded_pair_sym (a b : Booking) :
  excluded_pair a b = excluded_pair b a.
Proof.
  unfold excluded_pair.
  rewrite (String.eqb_sym (rb_room_id a)), tsrange_overlap_sym.
  reflexivity.
Qed.

(** Half-open overlap is contained in the inclusive range overlap. *)
Lemma overlap_tsrange (a1 a2 b1 b2 : Z) :
  overlap a1 a2 b1 b2 = true -> tsrange_overlap a1 a2 b1 b2 = true.
Proof.
  unfold overlap, tsrange_overlap.
  rewrite !andb_true_iff, !Z.ltb_lt, !Z.leb_le. lia.
Qed.

Lemma excluded_pair_update (u : BookingUpdate) (a b : Booking) :
  excluded_pair (apply_update u a) b = excluded_pair a b.
Proof. reflexivity. Qed.

Lemma no_overlapping_spec (row : Booking) (others : list Booking) :
  no_overlapping_bookings row others = true <->
  forall o, In o others -> excluded_pair row o = false.
Proof.
  unfold no_overlapping_bookings. rewrite forallb_forall.
  split; intros H o Ho; specialize (H o Ho).
  - now apply negb_true_iff.
  - now apply negb_true_iff.
Qed.

Lemma existsb_false {A : Type} (p : A -> bool) (l : list A) :
  existsb p l = false <-> forall x, In x l -> p x = false.
Proof.
  induction l as [|y l IH]; simpl.
  - split; [intros _ x [] | reflexivity].
  - rewrite orb_false_iff, IH. split.
    + intros [Hy Hl] x [<-|Hx]; auto.
    + intros H; split; [apply H; now left | intros x Hx; apply H; now right].
Qed.

Lemma insert_commits (s s' : Store) (uid : Uid) (newid : string)
  (row : BookingInsert) :
  insert s uid newid row = Data s' ->
  s' = with_bookings s (room_bookings s ++ [new_row newid row])
  /\ insert_with_check uid (new_row newid row) = true
  /\ valid_booking_time_range (new_row newid row) = true
  /\ (forall o, In o (room_bookings s) -> rb_id o <> newid)
  /\ (forall o, In o (room_bookings s) ->
                excluded_pair (new_row newid row) o = false).
Proof.
  unfold insert.
  destruct (insert_with_check uid (new_row newid row)) eqn:Hrls; simpl;
    [|discriminate].
  destruct (valid_booking_time_range (new_row newid row)) eqn:Hchk; simpl;
    [|discriminate].
  destruct (existsb _ (room_bookings s)) eqn:Hpk; [discriminate|].
  destruct (no_overlapping_bookings _ (room_bookings s)) eqn:Hex; simpl;
    [|discriminate].
  intros [= <-]. repeat split.
  - intros o Ho Heq.
    pose proof (proj1 (existsb_false _ _) Hpk o Ho) as Hne.
    simpl in Hne. apply String.eqb_neq in Hne. contradiction.
  - now apply no_overlapping_spec.
Qed.

Lemma insert_keeps_constraints (s s' : Store) (uid : Uid) (newid : string)
  (row : BookingInsert) :
  constraints_hold (room_bookings s) ->
  insert s uid newid row = Data s' ->
  constraints_hold (room_bookings s').
Proof.
  intros [Hpk Htr Hex] Hrun.
  apply insert_commits in Hrun as (-> & _ & Hchk & Hfresh & Hnew).
  simpl. constructor.
  - rewrite map_app. simpl. apply NoDup_app; trivial.
    + constructor; [intros [] | constructor].
    + intros x Hx [<-|[]].
      apply in_map_iff in Hx as (o & Hid & Ho).
      exact (Hfresh o Ho Hid).
  - intros r Hr. apply in_app_iff in Hr as [Hr|[<-|[]]]; auto.
  - intros a b Ha Hb Hne.
    apply in_app_iff in Ha as [Ha|[<-|[]]];
      apply in_app_iff in Hb as [Hb|[<-|[]]]; auto.
    + rewrite excluded_pair_sym. auto.
    + contradiction.
Qed.

Lemma updated_row_id (s : Store) (uid : Uid) (target : string)
  (u : BookingUpdate) (r : Booking) :
  rb_id (if targeted s uid target r then apply_update u r else r) = rb_id r.
Proof. now destruct (targeted s uid target r). Qed.

Lemma updated_rows_ids (s : Store) (uid : Uid) (target : string)
  (u : BookingUpdate) :
  map rb_id (updated_rows s uid target u) = map rb_id (room_bookings s).
Proof.
  unfold updated_rows. rewrite map_map.
  apply map_ext. intros r. apply updated_row_id.
Qed.

Lemma update_commits (s s' : Store) (uid : Uid) (target : string)
  (u : BookingUpdate) :
  update s uid target u = Data s' ->
  s' = with_bookings s (updated_rows s uid target u).
Proof.
  unfold update.
  destruct (existsb _ _); [discriminate|].
  destruct (existsb _ _); [discriminate|].
  destruct (existsb _ _); [discriminate|].
  now intros [= <-].
Qed.

(** An update leaves identifiers, rooms and times as they are, so it cannot
    disturb any of the three constraints. *)
Lemma updated_rows_keep_constraints (s : Store) (uid : Uid) (target : string)
  (u : BookingUpdate) :
  constraints_hold (room_bookings s) ->
  constraints_hold (updated_rows s uid target u).
Proof.
  intros [Hpk Htr Hex]. constructor.
  - now rewrite updated_rows_ids.
  - intros r Hr. unfold updated_rows in Hr.
    apply in_map_iff in Hr as (r0 & <- & Hr0).
    specialize (Htr r0 Hr0).
    now destruct (targeted s uid target r0).
  - intros a b Ha Hb Hne. unfold updated_rows in Ha, Hb.
    apply in_map_iff in Ha as (a0 & <- & Ha0).
    apply in_map_iff in Hb as (b0 & <- & Hb0).
    rewrite !updated_row_id in Hne.
    specialize (Hex a0 b0 Ha0 Hb0 Hne).
    now destruct (targeted s uid target a0), (targeted s uid target b0).
Qed.

Lemma run_commits (s s' : Store) (st : Statement) :
  run s st = Data s' -> s' = with_bookings s (outcome s st).
Proof.
  destruct st as [uid newid row | uid target u]; simpl; intros H.
  - now apply insert_commits in H as (-> & _).
  - now apply update_commits in H.
Qed.

Lemma run_keeps_constraints (s s' : Store) (st : Statement) :
  constraints_hold (room_bookings s) ->
  run s st = Data s' ->
  constraints_hold (room_bookings s').
Proof.
  destruct st as [uid newid row | uid target u]; simpl; intros Hc H.
  - eapply insert_keeps_constraints; eauto.
  - apply update_commits in H as ->. simpl.
    now apply updated_rows_keep_constraints.
Qed.

Lemma reachable_constraints (s : Store) :
  reachable s -> constraints_hold (room_bookings s).
Proof.
  induction 1 as [s H | s st s' _ IH Hrun | s s' _ IH Heq].
  - exact H.
  - eapply run_keeps_constraints; eauto.
  - now rewrite Heq.
Qed.

Lemma distinct_positions_distinct_ids (rows : list Booking) (i j : nat)
  (a b : Booking) :
  NoDup (map rb_id rows) ->
  i <> j ->
  nth_error rows i = Some a ->
  nth_error rows j = Some b ->
  rb_id a <> rb_id b.
Proof.
  intros Hnd Hij Ha Hb Heq. apply Hij.
  apply (proj1 (NoDup_nth_error (map rb_id rows)) Hnd).
  - rewrite length_map. apply nth_error_Some. now rewrite Ha.
  - rewrite !nth_error_map, Ha, Hb. simpl. now rewrite Heq.
Qed.

Lemma constraints_approved_disjoint (rows : list Booking) :
  constraints_hold rows -> approved_disjoint rows.
Proof.
  intros [Hpk _ Hex] i j a b Hij Ha Hb Hroom _ _.
  pose proof (distinct_positions_distinct_ids rows i j a b Hpk Hij Ha Hb) as Hne.
  specialize (Hex a b (nth_error_In _ _ Ha) (nth_error_In _ _ Hb) Hne).
  unfold excluded_pair in Hex. rewrite Hroom, String.eqb_refl in Hex.
  simpl in Hex.
  destruct (intervals_overlap a b) eqn:Hov; [|reflexivity].
  apply overlap_tsrange in Hov. congruence.
Qed.

End TableFacts.

(** ** The handlers reach the store only through [insert] and [update] *)

Module WorkflowFacts.

Import Pg Supabase BookingUtils Table TableFacts.

(** Case analysis on what an awaited read yields. *)
Ltac awaited :=
  match goal with
  | |- context [over_link ?w ?served] =>
      destruct (over_link w served) as [[?|?]|?]
  end.

Lemma write_reachable (w : World) (r : Request) (st : Statement) :
  reachable (db w) ->
  reachable (db (fst (write w r (run (db w) st)))).
Proof.
  intros Hr. unfold write.
  destruct (link w); simpl; trivial.
  destruct (run (db w) st) eqn:Hrun; simpl; trivial.
  eapply reach_commit; eauto.
Qed.

Lemma from_insert_reachable (w : World) (newid : string) (row : BookingInsert) :
  reachable (db w) -> reachable (db (fst (from_insert w newid row))).
Proof. apply (write_reachable w _ (INSERT (user w) newid row)). Qed.

Lemma from_update_reachable (w : World) (u : BookingUpdate) (target : string) :
  reachable (db w) -> reachable (db (fst (from_update w u target))).
Proof. apply (write_reachable w _ (UPDATE (user w) target u)). Qed.

Lemma checkBookingAvailability_db (w : World) (roomId : string)
  (startTime endTime : JsDate) (ex : option string) :
  db (fst (checkBookingAvailability w roomId startTime endTime ex)) = db w.
Proof.
  unfold checkBookingAvailability.
  destruct startTime, endTime; trivial. simpl.
  destruct (over_link w _) as [[[|c l]|e]|reason]; reflexivity.
Qed.

Lemma getConflictingBookings_db (w : World) (roomId : string)
  (startTime endTime : JsDate) (ex : string) :
  db (fst (getConflictingBookings w roomId startTime endTime ex)) = db w.
Proof.
  unfold getConflictingBookings.
  destruct startTime, endTime; trivial. simpl.
  awaited; reflexivity.
Qed.

Lemma fetchPendingBookings_db (w : World) (st : AdminApprovalView.State) :
  db (fst (AdminApprovalView.fetchPendingBookings w st)) = db w.
Proof.
  unfold AdminApprovalView.fetchPendingBookings. simpl.
  awaited; reflexivity.
Qed.

Lemma loadBookings_db (w : World) (st : MyBookings.State) :
  db (fst (MyBookings.loadBookings w st)) = db w.
Proof.
  unfold MyBookings.loadBookings.
  destruct (user w); trivial. simpl.
  awaited; reflexivity.
Qed.

Lemma handleSubmit_reachable (now : Z) (newid : string) (w : World)
  (st : CreateBookingDialog.State) :
  reachable (db w) ->
  reachable (db (fst (CreateBookingDialog.handleSubmit now newid w st))).
Proof.
  intros Hr. unfold CreateBookingDialog.handleSubmit.
  destruct (CreateBookingDialog.validateForm (zone w) now st) as [st1 [|]];
    simpl; trivial.
  destruct (user w) as [userId|] eqn:Hu; simpl; trivial.
  pose proof (from_insert_reachable
                w newid (CreateBookingDialog.submitted_row
                           userId (CreateBookingDialog.setLoading st1 true)) Hr)
    as H.
  destruct (from_insert w newid _) as [w' [[[]|e]|reason]]; exact H.
Qed.

Lemma handleApprove_reachable (w : World) (st : AdminApprovalView.State) :
  reachable (db w) ->
  reachable (db (fst (AdminApprovalView.handleApprove w st))).
Proof.
  intros Hr. unfold AdminApprovalView.handleApprove.
  destruct (AdminApprovalView.selectedBooking st) as [selected|]; trivial.
  pose proof (from_update_reachable
                w {| set_status := Some approved; set_updated_at := None |}
                (AdminApprovalView.pb_id selected) Hr) as H.
  destruct (from_update w _ _) as [w' [[[]|e]|reason]]; simpl in *; trivial.
  now rewrite fetchPendingBookings_db.
Qed.

Lemma handleReject_reachable (w : World) (st : AdminApprovalView.State)
  (bookingId : string) :
  reachable (db w) ->
  reachable (db (fst (AdminApprovalView.handleReject w st bookingId))).
Proof.
  intros Hr. unfold AdminApprovalView.handleReject.
  pose proof (from_update_reachable
                w {| set_status := Some rejected; set_updated_at := None |}
                bookingId Hr) as H.
  destruct (from_update w _ _) as [w' [[[]|e]|reason]]; simpl in *; trivial.
  now rewrite fetchPendingBookings_db.
Qed.

Lemma handleCancel_reachable (now : Z) (w : World) (st : MyBookings.State)
  (bookingId : string) :
  reachable (db w) ->
  reachable (db (fst (MyBookings.handleCancel now w st bookingId))).
Proof.
  intros Hr. unfold MyBookings.handleCancel.
  pose proof (from_update_reachable
                w {| set_status := Some cancelled; set_updated_at := Some now |}
                bookingId Hr) as H.
  destruct (from_update w _ _) as [w' [[[]|e]|reason]]; simpl in *; trivial.
  now rewrite loadBookings_db.
Qed.

Lemma write_sent (w : World) (r : Request) (served : Response Store) :
  sent (fst (write w r served)) = sent w ++ [r].
Proof.
  unfold write. destruct (link w); simpl; trivial.
  now destruct served.
Qed.

Lemma fetchPendingBookings_sent (w : World) (st : AdminApprovalView.State) :
  sent (fst (AdminApprovalView.fetchPendingBookings w st))
  = sent w ++ [Select AdminApprovalView.pending_query].
Proof.
  unfold AdminApprovalView.fetchPendingBookings. simpl.
  awaited; reflexivity.
Qed.

Lemma handleApproveClick_sent (w : World) (st : AdminApprovalView.State)
  (booking : AdminApprovalView.PendingBooking) :
  sent (fst (AdminApprovalView.handleApproveClick w st booking))
  = sent w ++
    [Select (conflicts_query
               (AdminApprovalView.pb_room_id booking)
               (local_time w (AdminApprovalView.pb_start_time booking))
               (local_time w (AdminApprovalView.pb_end_time booking))
               (AdminApprovalView.pb_id booking))].
Proof.
  unfold AdminApprovalView.handleApproveClick, getConflictingBookings,
    from_select_joined. simpl.
  awaited; reflexivity.
Qed.

(** A rejection sends no approval. *)
Lemma handleReject_approvals (w : World) (st : AdminApprovalView.State)
  (bookingId : string) :
  approvals (sent (fst (AdminApprovalView.handleReject w st bookingId)))
  = approvals (sent w).
Proof.
  unfold AdminApprovalView.handleReject.
  pose proof (write_sent w
                (Update {| set_status := Some rejected;
                           set_updated_at := None |} bookingId)
                (update (db w) (user w) bookingId
                        {| set_status := Some rejected;
                           set_updated_at := None |})) as H.
  unfold from_update.
  destruct (write w _ _) as [w' [[[]|e]|reason]]; simpl in *;
    rewrite ?fetchPendingBookings_sent, H;
    unfold approvals; rewrite !filter_app; simpl;
    now rewrite ?app_nil_r.
Qed.

Lemma handleApprove_approvals (w : World) (view : AdminApprovalView.State)
  (selected : AdminApprovalView.PendingBooking) :
  AdminApprovalView.selectedBooking view = Some selected ->
  approvals (sent (fst (AdminApprovalView.handleApprove w view)))
  = approvals (sent w)
      ++ [Update {| set_status := Some approved; set_updated_at := None |}
                 (AdminApprovalView.pb_id selected)].
Proof.
  intros Hsel. unfold AdminApprovalView.handleApprove. rewrite Hsel.
  pose proof (write_sent
                w (Update {| set_status := Some approved;
                             set_updated_at := None |}
                          (AdminApprovalView.pb_id selected))
                (update (db w) (user w) (AdminApprovalView.pb_id selected)
                        {| set_status := Some approved;
                           set_updated_at := None |})) as H.
  unfold from_update.
  destruct (write w _ _) as [w' [[[]|e]|reason]]; simpl in *;
    rewrite ?fetchPendingBookings_sent, H;
    unfold approvals; rewrite !filter_app; simpl;
    now rewrite ?app_nil_r.
Qed.

(** The run of [handleApproveClick] up to its [await]. *)
Lemma handleApproveClick_suspends (w : World) (st : AdminApprovalView.State)
  (booking : AdminApprovalView.PendingBooking) :
  let q := conflicts_query
             (AdminApprovalView.pb_room_id booking)
             (local_time w (AdminApprovalView.pb_start_time booking))
             (local_time w (AdminApprovalView.pb_end_time booking))
             (AdminApprovalView.pb_id booking) in
  AdminApprovalView.handleApproveClick w st booking
  = (send w (Select q),
     AdminApprovalView.setSuspended
       (AdminApprovalView.setSelectedBooking st (Some booking))
       (AdminApprovalView.suspended st
          ++ [snd (getConflictingBookings
                     w (AdminApprovalView.pb_room_id booking)
                     (Instant (local_time
                                 w (AdminApprovalView.pb_start_time booking)))
                     (Instant (local_time
                                 w (AdminApprovalView.pb_end_time booking)))
                     (AdminApprovalView.pb_id booking))])).
Proof.
  unfold AdminApprovalView.handleApproveClick, getConflictingBookings,
    from_select_joined. simpl.
  awaited; reflexivity.
Qed.

End WorkflowFacts.

(** ** Main results *)

Import Pg Supabase BookingUtils Table.

(** C1. In every reachable state of the bookings store no two approved
    bookings of the same room have overlapping [start_time, end_time)
    intervals; a statement whose outcome would contain such a pair fails;
    and the four handlers that write to the store (creation, approval,
    rejection, cancellation) lead from reachable states to reachable
    states. *)
Theorem C1_approved_bookings_never_overlap :
  (forall s, reachable s -> approved_disjoint (room_bookings s))
  /\ (forall s st, reachable s ->
                   ~ approved_disjoint (outcome s st) ->
                   exists e, run s st = Fail e)
  /\ (forall now newid bookingId w form view mine,
         reachable (db w) ->
         reachable (db (fst (CreateBookingDialog.handleSubmit now newid w form)))
         /\ reachable (db (fst (AdminApprovalView.handleApprove w view)))
         /\ reachable (db (fst (AdminApprovalView.handleReject w view bookingId)))
         /\ reachable (db (fst (MyBookings.handleCancel now w mine bookingId)))).
Proof.
  split; [|split].
  - intros s Hr.
    apply TableFacts.constraints_approved_disjoint.
    now apply TableFacts.reachable_constraints.
  - intros s st Hr Hbad.
    destruct (run s st) as [s'|e] eqn:Hrun; [|now exists e].
    exfalso. apply Hbad.
    pose proof (TableFacts.run_commits s s' st Hrun) as Hs'.
    assert (Hreach : reachable s') by (eapply reach_commit; eauto).
    apply TableFacts.reachable_constraints in Hreach.
    rewrite Hs' in Hreach. simpl in Hreach.
    now apply TableFacts.constraints_approved_disjoint.
  - intros now newid bookingId w form view mine Hr. repeat split.
    + now apply WorkflowFacts.handleSubmit_reachable.
    + now apply WorkflowFacts.handleApprove_reachable.
    + now apply WorkflowFacts.handleReject_reachable.
    + now apply WorkflowFacts.handleCancel_reachable.
Qed.

Lemma sample_r1_reachable : reachable (Sample.store [Sample.r1]).
Proof.
  apply (reach_commit (Sample.store [new_row "r1" Sample.alice_request])
                      (UPDATE (Some "carol"%string) "r1" Sample.approve)).
  - apply (reach_commit (Sample.store [])
                        (INSERT (Some "alice"%string) "r1" Sample.alice_request)).
    + apply reach_validated. simpl. constructor.
      * constructor.
      * intros r [].
      * intros a b [].
    + reflexivity.
  - reflexivity.
Defined.

Lemma sample_double_booking :
  ~ approved_disjoint
      (outcome (Sample.store [Sample.r1])
               (INSERT (Some "bob"%string) "n1" Sample.approved_request)).
Proof.
  intros H.
  specialize (H 0%nat 1%nat Sample.r1 (new_row "n1" Sample.approved_request)).
  simpl in H.
  assert (Hov : true = false);
    [apply H; (discriminate || reflexivity) | discriminate Hov].
Defined.

Lemma C1_witness :
  reachable (Sample.store [Sample.r1])
  /\ approved_disjoint (room_bookings (Sample.store [Sample.r1]))
  /\ exists e,
      run (Sample.store [Sample.r1])
          (INSERT (Some "bob"%string) "n1" Sample.approved_request) = Fail e.
Proof.
  split; [exact sample_r1_reachable | split].
  - apply (proj1 C1_approved_bookings_never_overlap).
    exact sample_r1_reachable.
  - apply (proj1 (proj2 C1_approved_bookings_never_overlap)).
    + exact sample_r1_reachable.
    + exact sample_double_booking.
Defined.

(** ** What the two availability queries select *)

Module CheckerFacts.

Import TableFacts.

(** The filter chain of [getConflictingBookings] is the conflict test of
    the specification with statuses approved and pending. *)
Lemma conflicts_query_spec (roomId : string) (startTime endTime : Z)
  (ex : string) (r : Booking) :
  forallb (fun f => matches f r)
          (filters (conflicts_query roomId startTime endTime ex))
  = conflicting roomId startTime endTime (Some ex) [approved; pending] r.
Proof.
  unfold conflicting, overlap. simpl. rewrite Z.gtb_ltb.
  destruct (rb_room_id r =? roomId)%string, (rb_id r =? ex)%string,
    (status_eqb (rb_status r) approved), (status_eqb (rb_status r) pending),
    (rb_start_time r <? endTime), (startTime <? rb_end_time r); reflexivity.
Qed.

(** The filter chain of [checkBookingAvailability] is the conflict test
    with status approved and nothing excluded. *)
Lemma availability_query_spec (roomId : string) (startTime endTime : Z)
  (r : Booking) :
  forallb (fun f => matches f r)
          (filters (availability_query roomId startTime endTime))
  = conflicting roomId startTime endTime None [approved] r.
Proof.
  unfold conflicting, overlap. simpl. rewrite Z.gtb_ltb.
  destruct (rb_room_id r =? roomId)%string,
    (status_eqb (rb_status r) approved),
    (rb_start_time r <? endTime), (startTime <? rb_end_time r); reflexivity.
Qed.

Lemma select_conflicts (s : Store) (uid : Uid) (roomId : string)
  (startTime endTime : Z) (ex : string) :
  select_joined s uid (conflicts_query roomId startTime endTime ex)
  = found s uid roomId startTime endTime (Some ex) [approved; pending].
Proof.
  unfold select_joined, select, found. simpl order_start_time. cbv iota.
  f_equal. apply filter_ext. intros r.
  now rewrite conflicts_query_spec.
Qed.

Lemma select_availability (s : Store) (uid : Uid) (roomId : string)
  (startTime endTime : Z) :
  select_joined s uid (availability_query roomId startTime endTime)
  = found s uid roomId startTime endTime None [approved].
Proof.
  unfold select_joined, select, found. simpl order_start_time. cbv iota.
  f_equal. apply filter_ext. intros r.
  now rewrite availability_query_spec.
Qed.

Lemma in_filter_map {A B : Type} (f : A -> option B) (l : list A) (y : B) :
  In y (filter_map f l) <-> exists x, In x l /\ f x = Some y.
Proof.
  induction l as [|a l IH]; simpl.
  - split; [intros [] | intros (x & [] & _)].
  - destruct (f a) as [b|] eqn:Hfa; simpl; rewrite IH; split.
    + intros [<-|(x & Hx & Hfx)]; [exists a | exists x]; auto.
    + intros (x & [<-|Hx] & Hfx); [left; congruence | right; exists x; auto].
    + intros (x & Hx & Hfx); exists x; auto.
    + intros (x & [<-|Hx] & Hfx); [congruence | exists x; auto].
Qed.

(** Membership in the reported conflicts. *)
Lemma in_found (s : Store) (uid : Uid) (roomId : string)
  (startTime endTime : Z) (exclude : option string)
  (statuses : list BookingStatus) (j : JoinedBooking) :
  In j (found s uid roomId startTime endTime exclude statuses) <->
  exists r, In r (room_bookings s)
            /\ select_using s uid r = true
            /\ conflicting roomId startTime endTime exclude statuses r = true
            /\ join s r = Some j.
Proof.
  unfold found. rewrite in_filter_map. split.
  - intros (r & Hr & Hj). apply filter_In in Hr as (Hr & Hc).
    apply andb_true_iff in Hc as (Hv & Hc). exists r; auto.
  - intros (r & Hr & Hv & Hc & Hj). exists r. split; trivial.
    apply filter_In. split; trivial. now rewrite Hv, Hc.
Qed.

Lemma getConflictingBookings_online (w : World) (roomId : string)
  (startTime endTime : Z) (ex : string) :
  link w = online ->
  snd (getConflictingBookings w roomId (Instant startTime) (Instant endTime) ex)
  = map describe
        (found (db w) (user w) roomId startTime endTime (Some ex)
               [approved; pending]).
Proof.
  intros Hl. unfold getConflictingBookings, from_select_joined, over_link.
  rewrite Hl. simpl. now rewrite select_conflicts.
Qed.

Lemma checkBookingAvailability_online (w : World) (roomId : string)
  (startTime endTime : Z) (ex : option string) :
  link w = online ->
  snd (checkBookingAvailability w roomId (Instant startTime) (Instant endTime) ex)
  = option_map describe
               (hd_error (found (db w) (user w) roomId startTime endTime None
                                [approved])).
Proof.
  intros Hl. unfold checkBookingAvailability, from_select_joined, over_link.
  rewrite Hl. simpl. rewrite select_availability.
  now destruct (found _ _ _ _ _ _ _).
Qed.

(** Off line, both checkers answer as if nothing conflicted. *)
Lemma checkBookingAvailability_offline (w : World) (roomId : string)
  (startTime endTime : JsDate) (ex : option string) :
  link w <> online ->
  snd (checkBookingAvailability w roomId startTime endTime ex) = None.
Proof.
  intros Hl. unfold checkBookingAvailability, from_select_joined, over_link.
  destruct startTime, endTime; trivial.
  destruct (link w); simpl; trivial. contradiction.
Qed.

Lemma getConflictingBookings_offline (w : World) (roomId : string)
  (startTime endTime : JsDate) (ex : string) :
  link w <> online ->
  snd (getConflictingBookings w roomId startTime endTime ex) = [].
Proof.
  intros Hl. unfold getConflictingBookings, from_select_joined, over_link.
  destruct startTime, endTime; trivial.
  destruct (link w); simpl; trivial. contradiction.
Qed.

End CheckerFacts.

(** C2 (what the code does on a failed query).  When the availability
    query fails, [checkBookingAvailability] answers [null] and
    [getConflictingBookings] answers the empty list, the very values that
    stand for "no conflict"; the approval click awaits that empty list
    and, when it is delivered, opens the dialog with the "safe to approve"
    panel and raises no error toast, and the submission form records no
    conflicting booking. *)
Theorem C2_failed_query_reads_as_no_conflict :
  forall (w : World) (roomId : string) (startTime endTime : JsDate)
         (ex : option string) (exId : string)
         (view : AdminApprovalView.State)
         (booking : AdminApprovalView.PendingBooking)
         (form : CreateBookingDialog.State),
    link w <> online ->
    snd (checkBookingAvailability w roomId startTime endTime ex) = None
    /\ snd (getConflictingBookings w roomId startTime endTime exId) = []
    /\ (let clicked := snd (AdminApprovalView.handleApproveClick w view booking) in
        let view' :=
          AdminApprovalView.resume
            clicked (List.length (AdminApprovalView.suspended view)) in
        AdminApprovalView.suspended clicked
        = AdminApprovalView.suspended view ++ [[]]
        /\ AdminApprovalView.conflicts view' = []
        /\ AdminApprovalView.approvalDialogOpen view' = true
        /\ AdminApprovalView.safe_to_approve_panel view' = true
        /\ AdminApprovalView.toasts view' = AdminApprovalView.toasts view)
    /\ CreateBookingDialog.conflictingBooking
         (snd (CreateBookingDialog.checkAvailability w form)) = None.
Proof.
  intros w roomId startTime endTime ex exId view booking form Hl.
  split; [now apply CheckerFacts.checkBookingAvailability_offline|].
  split; [now apply CheckerFacts.getConflictingBookings_offline|].
  split.
  - unfold AdminApprovalView.handleApproveClick.
    pose proof (CheckerFacts.getConflictingBookings_offline
                  w (AdminApprovalView.pb_room_id booking)
                  (Instant (local_time w (AdminApprovalView.pb_start_time booking)))
                  (Instant (local_time w (AdminApprovalView.pb_end_time booking)))
                  (AdminApprovalView.pb_id booking) Hl) as H.
    destruct (getConflictingBookings w _ _ _ _) as [w' found]. simpl in H.
    subst found. cbv zeta. unfold AdminApprovalView.resume. simpl.
    rewrite nth_error_app2, Nat.sub_diag by apply Nat.le_refl. simpl.
    unfold AdminApprovalView.safe_to_approve_panel. simpl. auto.
  - unfold CreateBookingDialog.checkAvailability.
    destruct (Js.is_empty (CreateBookingDialog.roomId form)); trivial.
    destruct (CreateBookingDialog.startDate form),
      (CreateBookingDialog.startTime form); trivial.
    simpl CreateBookingDialog.endTime.
    destruct (CreateBookingDialog.endTime form); trivial.
    match goal with
    | |- context [checkBookingAvailability ?a ?b ?c ?d ?e] =>
        pose proof (CheckerFacts.checkBookingAvailability_offline a b c d e Hl)
          as H;
        destruct (checkBookingAvailability a b c d e) as [w' conflict]
    end.
    simpl in H. now subst conflict.
Qed.

Lemma C2_witness :
  link (Sample.world [Sample.r1] (failing Sample.network_down) "bob") <> online
  /\ snd (checkBookingAvailability
            (Sample.world [Sample.r1] (failing Sample.network_down) "bob")
            "room-x" (Instant (Sample.at_ 10 30)) (Instant (Sample.at_ 11 30))
            None) = None
  /\ snd (checkBookingAvailability
            (Sample.world [Sample.r1] online "bob")
            "room-x" (Instant (Sample.at_ 10 30)) (Instant (Sample.at_ 11 30))
            None) <> None.
Proof.
  split; [discriminate | split].
  - apply (C2_failed_query_reads_as_no_conflict
             (Sample.world [Sample.r1] (failing Sample.network_down) "bob")
             "room-x" (Instant (Sample.at_ 10 30)) (Instant (Sample.at_ 11 30))
             None "p2" (Sample.approval_view [Sample.p2])
             (Sample.listed Sample.p2) Sample.bob_form).
    discriminate.
  - discriminate.
Defined.

(** C3 (what the code does).  An insert whose room and interval match an
    existing pending booking is rejected by [no_overlapping_bookings] with
    SQLSTATE 23P01, whenever it passes the insert policy, the time-range
    check and the primary key: the constraint has no condition on the
    status and blocks on every booking of the room.  The conflict check
    run before an approval reports every approved or pending booking of
    the room, other than the booking itself, that the store holds with the
    same interval (provided the caller may see it and its room and
    requester exist).  The check the form runs before a submission looks
    at approved bookings only: with alice's pending booking P1 of room X
    from 10:00 to 11:00 as the only row, it reports nothing for bob's
    request for the same room and interval and the form passes
    validation, yet the store rejects the row, the table stays as it was
    and the form raises the "Booking Conflict" toast. *)
Theorem C3_pending_booking_blocks_insert :
  (forall (s : Store) (uid : Uid) (newid : string) (row : BookingInsert)
          (p : Booking),
      In p (room_bookings s) ->
      rb_status p = pending ->
      rb_room_id p = ins_room_id row ->
      rb_start_time p = ins_start_time row ->
      rb_end_time p = ins_end_time row ->
      insert_with_check uid (new_row newid row) = true ->
      valid_booking_time_range (new_row newid row) = true ->
      (forall o, In o (room_bookings s) -> rb_id o <> newid) ->
      insert s uid newid row
      = Fail (exclusion_violation "no_overlapping_bookings"))
  /\ (forall (w : World) (roomId exId : string) (startTime endTime : Z)
             (b : Booking) (jb : JoinedBooking),
         link w = online ->
         In b (room_bookings (db w)) ->
         rb_room_id b = roomId ->
         rb_status b = pending \/ rb_status b = approved ->
         rb_id b <> exId ->
         rb_start_time b = startTime ->
         rb_end_time b = endTime ->
         startTime < endTime ->
         select_using (db w) (user w) b = true ->
         join (db w) b = Some jb ->
         In (describe jb)
            (snd (getConflictingBookings w roomId (Instant startTime)
                                         (Instant endTime) exId)))
  /\ (let w := fst (CreateBookingDialog.checkAvailability
                      (Sample.world [Sample.p1] online "bob")
                      Sample.bob_form) in
      let checked := snd (CreateBookingDialog.checkAvailability
                            (Sample.world [Sample.p1] online "bob")
                            Sample.bob_form) in
      let submitted :=
        CreateBookingDialog.handleSubmit (Sample.at_ 8 0) "n1" w checked in
      CreateBookingDialog.conflictingBooking checked = None
      /\ CreateBookingDialog.validation_message (zone w) (Sample.at_ 8 0) checked
         = None
      /\ room_bookings (db (fst submitted)) = [Sample.p1]
      /\ map Toast.title (CreateBookingDialog.toasts (snd submitted))
         = ["Booking Conflict"%string]).
Proof.
  split; [|split; [|repeat split]].
  - intros s uid newid row p Hp _ Hroom Hst Hen Hrls Hchk Hfresh.
    unfold insert. rewrite Hrls, Hchk. simpl.
    assert (Hpk : existsb (fun o => (rb_id o =? newid)%string) (room_bookings s)
                  = false).
    { apply TableFacts.existsb_false. intros o Ho.
      apply String.eqb_neq. now apply Hfresh. }
    rewrite Hpk.
    assert (Hex : no_overlapping_bookings (new_row newid row) (room_bookings s)
                  = false).
    { apply not_true_is_false. intros H.
      apply TableFacts.no_overlapping_spec with (o := p) in H; trivial.
      unfold excluded_pair, tsrange_overlap in H. simpl in H.
      rewrite Hroom, Hst, Hen, String.eqb_refl in H. simpl in H.
      unfold valid_booking_time_range in Hchk. simpl in Hchk.
      apply Z.ltb_lt in Hchk.
      apply andb_false_iff in H as [H|H]; apply Z.leb_gt in H; lia. }
    now rewrite Hex.
  - intros w roomId exId startTime endTime b jb Hl Hb Hroom Hst Hid Hs He Hlt
           Hvis Hj.
    rewrite CheckerFacts.getConflictingBookings_online by exact Hl.
    apply in_map. apply CheckerFacts.in_found.
    exists b. repeat split; trivial.
    unfold conflicting, overlap.
    rewrite Hroom, String.eqb_refl, Hs, He.
    rewrite (proj2 (String.eqb_neq _ _) Hid).
    rewrite (proj2 (Z.ltb_lt _ _) Hlt).
    destruct Hst as [-> | ->]; reflexivity.
Qed.

Lemma C3_witness :
  insert (Sample.store [Sample.p1]) (Some "bob"%string) "n1" Sample.bob_request
  = Fail (exclusion_violation "no_overlapping_bookings").
Proof.
  apply (proj1 C3_pending_booking_blocks_insert
           (Sample.store [Sample.p1]) (Some "bob"%string) "n1"%string
           Sample.bob_request Sample.p1).
  - simpl. now left.
  - reflexivity.
  - reflexivity.
  - reflexivity.
  - reflexivity.
  - reflexivity.
  - reflexivity.
  - intros o [<-|[]]. discriminate.
Defined.

(** C5 (what the code does).  The availability check selects the approved
    rows of the room whose interval overlaps the candidate's in the
    half-open sense, [start_time < b_end AND b_start < end_time]: against
    the approved booking R1 of 10:00 to 11:00 the candidate 10:30 to 11:30
    is reported and the candidate 11:00 to 12:00 is not.  The store
    constraint applies the inclusive rule
    [a_start <= b_end AND b_start <= a_end] to any two rows of a room; it
    contains the half-open rule and differs from it on touching
    intervals: the candidate 11:00 to 12:00, which the check lets through,
    forms an excluded pair with R1 and its insert is rejected with
    SQLSTATE 23P01. *)
Theorem C5_half_open_check_inclusive_constraint :
  (forall (roomId : string) (b_start b_end : Z) (r : Booking),
      forallb (fun f => matches f r)
              (filters (availability_query roomId b_start b_end)) = true
      <-> rb_room_id r = roomId
          /\ rb_status r = approved
          /\ rb_start_time r < b_end /\ b_start < rb_end_time r)
  /\ (exists c,
         snd (checkBookingAvailability
                (Sample.world [Sample.r1] online "bob") "room-x"
                (Instant (Sample.at_ 10 30)) (Instant (Sample.at_ 11 30)) None)
         = Some c /\ cb_id c = "r1"%string)
  /\ snd (checkBookingAvailability
            (Sample.world [Sample.r1] online "bob") "room-x"
            (Instant (Sample.at_ 11 0)) (Instant (Sample.at_ 12 0)) None)
     = None
  /\ (forall a b : Booking,
         excluded_pair a b = true
         <-> rb_room_id a = rb_room_id b
             /\ rb_start_time a <= rb_end_time b
             /\ rb_start_time b <= rb_end_time a)
  /\ (forall a b : Booking,
         rb_room_id a = rb_room_id b ->
         intervals_overlap a b = true -> excluded_pair a b = true)
  /\ (intervals_overlap (new_row "n1" Sample.touching_request) Sample.r1
      = false
      /\ excluded_pair (new_row "n1" Sample.touching_request) Sample.r1 = true
      /\ insert (Sample.store [Sample.r1]) (Some "bob"%string) "n1"
                Sample.touching_request
         = Fail (exclusion_violation "no_overlapping_bookings")).
Proof.
  split; [|split; [|split; [|split; [|split; [|repeat split]]]]].
  - intros roomId b_start b_end r.
    rewrite CheckerFacts.availability_query_spec.
    unfold conflicting, overlap. simpl.
    rewrite !andb_true_iff, orb_false_r, String.eqb_eq, !Z.ltb_lt.
    destruct (rb_status r); simpl; intuition (try discriminate; auto).
  - eexists. split; reflexivity.
  - reflexivity.
  - intros a b. unfold excluded_pair, tsrange_overlap.
    now rewrite !andb_true_iff, String.eqb_eq, !Z.leb_le.
  - intros a b Hroom Hov. unfold excluded_pair.
    rewrite Hroom, String.eqb_refl. simpl.
    now apply TableFacts.overlap_tsrange.
Qed.

Lemma C5_witness :
  intervals_overlap Sample.r1 Sample.p2 = true
  /\ excluded_pair Sample.r1 Sample.p2 = true.
Proof.
  split; [reflexivity|].
  apply (proj1 (proj2 (proj2 (proj2 (proj2
                  C5_half_open_check_inclusive_constraint))))
           Sample.r1 Sample.p2); reflexivity.
Defined.

Lemma conflicts_disable_approve (view : AdminApprovalView.State) :
  AdminApprovalView.conflicts view <> [] ->
  AdminApprovalView.approve_disabled view = true.
Proof.
  intros Hne. unfold AdminApprovalView.approve_disabled.
  destruct (AdminApprovalView.conflicts view); [contradiction|].
  simpl List.length. rewrite (proj2 (Z.ltb_lt 0 _)) by lia.
  apply orb_true_r.
Qed.

Lemma sample_abroad_consistent :
  constraints_hold [Session.e1; Sample.p1; Session.p3].
Proof.
  constructor.
  - simpl. repeat constructor; simpl; intuition discriminate.
  - intros r [<-|[<-|[<-|[]]]]; reflexivity.
  - intros a b [<-|[<-|[<-|[]]]] [<-|[<-|[<-|[]]]] Hid;
      try reflexivity; now contradiction Hid.
Qed.

(** C6 (what the code does).  An approval click selects the booking and
    sends one query: the bookings of the same room with status approved or
    pending, other than the booking itself, whose interval overlaps the
    bounds of the booking as [new Date] reads them; the store is not
    written, and the handler waits for the answer.  When an answer is
    delivered it becomes the conflict list and the dialog opens on the
    booking selected at that moment; a delivered list that is not empty
    disables the Approve button of the dialog, a click on it sends nothing
    and changes nothing, and the dialog lists these conflicts.  The answer
    is not tied to the booking it was computed for: the buttons of the
    other cards stay enabled while the handler waits, so when Approve is
    clicked on a second card before the answer for the first is delivered,
    the dialog opens on the second booking with the answer for the first;
    if that answer is empty, the click on Approve sends the approval of
    the second booking, whatever its own conflicts are. *)
Theorem C6_conflict_answer_is_not_tied_to_the_selected_booking :
  (forall (w : World) (view : AdminApprovalView.State)
          (booking : AdminApprovalView.PendingBooking),
      let w' := fst (AdminApprovalView.handleApproveClick w view booking) in
      let view' := snd (AdminApprovalView.handleApproveClick w view booking) in
      sent w' =
        sent w ++
        [Select {| filters :=
                     [ eq_room_id (AdminApprovalView.pb_room_id booking);
                       neq_id (AdminApprovalView.pb_id booking);
                       or_status_eq [approved; pending];
                       lt_start_time
                         (AdminApprovalView.pb_end_time booking - zone w);
                       gt_end_time
                         (AdminApprovalView.pb_start_time booking - zone w) ];
                   order_start_time := None |}]
      /\ db w' = db w
      /\ AdminApprovalView.selectedBooking view' = Some booking
      /\ AdminApprovalView.conflicts view' = AdminApprovalView.conflicts view
      /\ AdminApprovalView.approvalDialogOpen view'
         = AdminApprovalView.approvalDialogOpen view
      /\ exists answer,
          AdminApprovalView.suspended view'
          = AdminApprovalView.suspended view ++ [answer]
          /\ (link w = online ->
              answer =
                map describe
                    (found (db w) (user w)
                           (AdminApprovalView.pb_room_id booking)
                           (AdminApprovalView.pb_start_time booking - zone w)
                           (AdminApprovalView.pb_end_time booking - zone w)
                           (Some (AdminApprovalView.pb_id booking))
                           [approved; pending])))
  /\ (forall (view : AdminApprovalView.State) (k : nat)
             (answer : list ConflictingBooking),
         nth_error (AdminApprovalView.suspended view) k = Some answer ->
         let view' := AdminApprovalView.resume view k in
         AdminApprovalView.conflicts view' = answer
         /\ AdminApprovalView.approvalDialogOpen view' = true
         /\ AdminApprovalView.selectedBooking view'
            = AdminApprovalView.selectedBooking view
         /\ (answer <> [] ->
             AdminApprovalView.approve_disabled view' = true
             /\ (forall w,
                    AdminApprovalView.act w view'
                                          AdminApprovalView.clickDialogApprove
                    = (w, view'))
             /\ (AdminApprovalView.selectedBooking view <> None ->
                 AdminApprovalView.conflicts_alert view' = answer)))
  /\ (forall (w : World) (view : AdminApprovalView.State) (i j : nat)
             (first second : AdminApprovalView.PendingBooking),
         AdminApprovalView.rendered view = true ->
         AdminApprovalView.approvalDialogOpen view = false ->
         AdminApprovalView.processingBookingId view = EmptyString ->
         AdminApprovalView.suspended view = [] ->
         nth_error (AdminApprovalView.bookings view) i = Some first ->
         nth_error (AdminApprovalView.bookings view) j = Some second ->
         AdminApprovalView.pb_id first <> EmptyString ->
         AdminApprovalView.pb_id second <> EmptyString ->
         snd (getConflictingBookings
                w (AdminApprovalView.pb_room_id first)
                (Instant (AdminApprovalView.pb_start_time first - zone w))
                (Instant (AdminApprovalView.pb_end_time first - zone w))
                (AdminApprovalView.pb_id first)) = [] ->
         approvals
           (sent (fst (AdminApprovalView.run w view
                                             (Session.two_quick_clicks i j))))
         = approvals (sent w)
             ++ [Update {| set_status := Some approved;
                           set_updated_at := None |}
                        (AdminApprovalView.pb_id second)]).
Proof.
  split; [|split].
  - intros w view booking w' view'. subst w' view'.
    rewrite WorkflowFacts.handleApproveClick_suspends. simpl.
    repeat split.
    eexists. split; [reflexivity|].
    intros Hl. now apply CheckerFacts.getConflictingBookings_online.
  - intros view k answer Hk view'. subst view'.
    unfold AdminApprovalView.resume. rewrite Hk. simpl.
    repeat split.
    + now apply conflicts_disable_approve.
    + intros w. unfold AdminApprovalView.act.
      rewrite conflicts_disable_approve by assumption.
      simpl. now rewrite !andb_false_r.
    + intros Hsel. unfold AdminApprovalView.conflicts_alert. simpl.
      destruct (AdminApprovalView.selectedBooking view); [|contradiction].
      destruct answer; [contradiction|reflexivity].
  - intros w view i j first second Hr Hclosed Hproc Hsusp Hi Hj Hfirst Hsecond
      Hanswer.
    assert (Hne : forall id_, id_ <> EmptyString ->
                              (EmptyString =? id_)%string = false).
    { intros id_ H. apply String.eqb_neq. congruence. }
    unfold Session.two_quick_clicks, AdminApprovalView.run.
    unfold AdminApprovalView.act at 1.
    rewrite Hi, Hr, Hproc, (Hne _ Hfirst). simpl andb. cbv iota.
    rewrite WorkflowFacts.handleApproveClick_suspends. cbv zeta.
    unfold local_time at 3 4. rewrite Hanswer, Hsusp.
    unfold AdminApprovalView.act at 1.
    simpl AdminApprovalView.bookings. rewrite Hj.
    unfold AdminApprovalView.rendered at 1. simpl AdminApprovalView.loading.
    simpl AdminApprovalView.bookings.
    fold (AdminApprovalView.rendered view). rewrite Hr.
    simpl AdminApprovalView.processingBookingId.
    rewrite Hproc, (Hne _ Hsecond). simpl andb. cbv iota.
    rewrite WorkflowFacts.handleApproveClick_suspends. cbv zeta.
    unfold AdminApprovalView.act at 1. unfold AdminApprovalView.resume.
    simpl AdminApprovalView.suspended. simpl nth_error. cbv iota.
    unfold AdminApprovalView.act.
    unfold AdminApprovalView.rendered, AdminApprovalView.approve_disabled.
    simpl AdminApprovalView.loading. simpl AdminApprovalView.bookings.
    fold (AdminApprovalView.rendered view). rewrite Hr.
    simpl AdminApprovalView.approvalDialogOpen.
    simpl AdminApprovalView.processingBookingId. rewrite Hproc.
    simpl AdminApprovalView.conflicts. simpl.
    match goal with
    | |- context [AdminApprovalView.handleApprove ?w3 ?view3] =>
        pose proof (WorkflowFacts.handleApprove_approvals
                      w3 view3 second eq_refl) as Happroved;
        destruct (AdminApprovalView.handleApprove w3 view3) as [w4 view4]
    end.
    simpl fst in *. rewrite Happroved.
    simpl sent. unfold approvals. rewrite !filter_app. simpl.
    now rewrite !app_nil_r.
Qed.

Lemma C6_witness :
  constraints_hold (room_bookings (db Session.carol_abroad))
  /\ snd (getConflictingBookings
            Session.carol_abroad "room-x"
            (Instant (Sample.at_ 10 0 - 420)) (Instant (Sample.at_ 11 0 - 420))
            "p1")
     = [mkConflict "e1" "Meeting e1" "Room X" (Sample.at_ 3 30)
                   (Sample.at_ 4 30) "Alice Ng"]
  /\ approvals
       (sent (fst (AdminApprovalView.run Session.carol_abroad Session.two_cards
                                         (Session.two_quick_clicks 1 0))))
     = [Update Sample.approve "p1"].
Proof.
  split; [exact sample_abroad_consistent|].
  split; [reflexivity|].
  apply (proj2 (proj2 C6_conflict_answer_is_not_tied_to_the_selected_booking)
           Session.carol_abroad Session.two_cards 1%nat 0%nat
           (Sample.listed Session.p3) (Sample.listed Sample.p1));
    try reflexivity; discriminate.
Defined.

(** ** Approval and cancellation *)

Module MutationFacts.

Import TableFacts.

Lemma with_bookings_same (s : Store) : with_bookings s (room_bookings s) = s.
Proof. now destruct s. Qed.

Lemma from_update_committed (w w1 : World) (u : BookingUpdate)
  (target : string) :
  from_update w u target = (w1, Resolved (Data tt)) ->
  room_bookings (db w1) = updated_rows (db w) (user w) target u.
Proof.
  unfold from_update, write.
  destruct (link w); simpl; try discriminate.
  destruct (update (db w) (user w) target u) as [s'|e] eqn:Hup; simpl;
    [|discriminate].
  intros [= <-]. simpl.
  now apply update_commits in Hup as ->.
Qed.

(** A caller without role touches no row whose status is not pending. *)
Lemma nothing_targeted (s : Store) (uid : Uid) (target : string) :
  is_manager s uid = false ->
  (forall r, In r (room_bookings s) -> rb_id r = target ->
             rb_status r <> pending) ->
  forall r, In r (room_bookings s) -> targeted s uid target r = false.
Proof.
  unfold is_manager. intros Hm Hst r Hr. unfold targeted, update_policy.
  rewrite Hm. simpl.
  destruct (rb_id r =? target)%string eqn:Hid; trivial. simpl.
  apply String.eqb_eq in Hid. specialize (Hst r Hr Hid).
  destruct (rb_status r); try contradiction;
    simpl; now rewrite !andb_false_r.
Qed.

Lemma update_without_target (s : Store) (uid : Uid) (target : string)
  (u : BookingUpdate) :
  (forall r, In r (room_bookings s) -> targeted s uid target r = false) ->
  update s uid target u = Data s.
Proof.
  intros Hnone. unfold update.
  assert (Htouched : filter (targeted s uid target) (room_bookings s) = []).
  { induction (room_bookings s) as [|r l IH]; trivial. simpl.
    rewrite (Hnone r (or_introl eq_refl)). apply IH.
    intros x Hx. apply Hnone. now right. }
  assert (Hrows : updated_rows s uid target u = room_bookings s).
  { unfold updated_rows. rewrite <- (map_id (room_bookings s)) at 2.
    apply map_ext_in. intros r Hr. now rewrite (Hnone r Hr). }
  rewrite Htouched, Hrows. simpl. now rewrite with_bookings_same.
Qed.

Lemma manager_policy (s : Store) (uid : Uid) (r : Booking) :
  is_manager s uid = true -> update_policy s uid r = true.
Proof.
  unfold is_manager, update_policy. intros ->.
  now rewrite orb_true_r.
Qed.

(** On a table that satisfies its constraints, an update by a leader or an
    admin is committed. *)
Lemma manager_update_commits (s : Store) (uid : Uid) (target : string)
  (u : BookingUpdate) :
  is_manager s uid = true ->
  constraints_hold (room_bookings s) ->
  update s uid target u = Data (with_bookings s (updated_rows s uid target u)).
Proof.
  intros Hm [Hpk Htr Hex]. unfold update.
  assert (H1 : existsb (fun r => negb (update_policy s uid (apply_update u r)))
                       (filter (targeted s uid target) (room_bookings s))
               = false).
  { apply existsb_false. intros r _. now rewrite manager_policy. }
  assert (H2 : existsb (fun r => negb (valid_booking_time_range
                                         (apply_update u r)))
                       (filter (targeted s uid target) (room_bookings s))
               = false).
  { apply existsb_false. intros r Hr. apply filter_In in Hr as [Hr _].
    apply negb_false_iff. exact (Htr r Hr). }
  assert (H3 : existsb (fun r => negb (no_overlapping_bookings
                                         (apply_update u r)
                                         (others_than
                                            r (updated_rows s uid target u))))
                       (filter (targeted s uid target) (room_bookings s))
               = false).
  { apply existsb_false. intros r Hr. apply filter_In in Hr as [Hr _].
    apply negb_false_iff. apply no_overlapping_spec. intros o Ho.
    unfold others_than in Ho. apply filter_In in Ho as [Ho Hne].
    apply negb_true_iff, String.eqb_neq in Hne.
    unfold updated_rows in Ho. apply in_map_iff in Ho as (o0 & <- & Ho0).
    rewrite updated_row_id in Hne.
    assert (Hpair : excluded_pair r o0 = false)
      by (apply Hex; trivial; congruence).
    now destruct (targeted s uid target o0). }
  now rewrite H1, H2, H3.
Qed.

End MutationFacts.

(** C7 (as amended).  A successful approval leaves the table as the
    statement [UPDATE ... SET status = 'approved' WHERE id = ...] leaves
    it: a row with the selected id that the caller may update gets status
    approved and keeps every other column, the approver and the approval
    timestamp included. *)
Theorem C7_approve_sets_status_only :
  forall (w w1 : World) (view : AdminApprovalView.State)
         (selected : AdminApprovalView.PendingBooking),
    AdminApprovalView.selectedBooking view = Some selected ->
    from_update w {| set_status := Some approved; set_updated_at := None |}
                (AdminApprovalView.pb_id selected)
    = (w1, Resolved (Data tt)) ->
    forall (i : nat) (r : Booking),
      nth_error (room_bookings (db w)) i = Some r ->
      rb_id r = AdminApprovalView.pb_id selected ->
      update_policy (db w) (user w) r = true ->
      nth_error
        (room_bookings (db (fst (AdminApprovalView.handleApprove w view)))) i
      = Some {| rb_id := rb_id r;
                rb_title := rb_title r;
                rb_description := rb_description r;
                rb_room_id := rb_room_id r;
                rb_user_id := rb_user_id r;
                rb_start_time := rb_start_time r;
                rb_end_time := rb_end_time r;
                rb_status := approved;
                rb_updated_at := rb_updated_at r;
                rb_approved_by := rb_approved_by r;
                rb_approved_at := rb_approved_at r |}.
Proof.
  intros w w1 view selected Hsel Hup i r Hi Hid Hpol.
  unfold AdminApprovalView.handleApprove. rewrite Hsel, Hup.
  rewrite WorkflowFacts.fetchPendingBookings_db.
  rewrite (MutationFacts.from_update_committed _ _ _ _ Hup).
  assert (Ht : targeted (db w) (user w) (AdminApprovalView.pb_id selected) r
               = true).
  { unfold targeted. now rewrite <- Hid, String.eqb_refl, Hpol. }
  unfold updated_rows. rewrite nth_error_map, Hi. simpl.
  now rewrite Ht.
Qed.

Lemma C7_witness :
  nth_error
    (room_bookings
       (db (fst (AdminApprovalView.handleApprove
                   (Sample.world [Sample.p1] online "carol")
                   (Sample.confirming Sample.p1)))))
    0
  = Some (Sample.booking "p1" "alice" (Sample.at_ 10 0) (Sample.at_ 11 0)
                         approved).
Proof.
  exact (C7_approve_sets_status_only
           (Sample.world [Sample.p1] online "carol")
           (fst (from_update (Sample.world [Sample.p1] online "carol")
                             Sample.approve "p1"))
           (Sample.confirming Sample.p1) (Sample.listed Sample.p1)
           eq_refl eq_refl 0%nat Sample.p1 eq_refl eq_refl eq_refl).
Defined.

(** C7, counterexample.  carol, an admin, approves alice's pending
    booking P1.  The approval succeeds and the row is approved, but its
    approver and its approval timestamp are still empty: neither the
    caller nor the time of the operation is recorded. *)
Lemma C7_counterexample :
  let w' := fst (AdminApprovalView.handleApprove
                   (Sample.world [Sample.p1] online "carol")
                   (Sample.confirming Sample.p1)) in
  let view' := snd (AdminApprovalView.handleApprove
                      (Sample.world [Sample.p1] online "carol")
                      (Sample.confirming Sample.p1)) in
  map Toast.title (AdminApprovalView.toasts view') = ["Success"%string]
  /\ map rb_status (room_bookings (db w')) = [approved]
  /\ map rb_approved_by (room_bookings (db w')) = [None]
  /\ map rb_approved_at (room_bookings (db w')) = [None]
  /\ map rb_approved_by (room_bookings (db w')) <> [Some "carol"%string].
Proof. repeat split. discriminate. Qed.

(** C8 (as amended).  A cancellation request by a caller who holds
    neither the leader nor the admin role, on a booking that is not
    pending, leaves the store as it was: the update policies offer the row
    to such a caller only while it is pending.  A leader or an admin is not
    held back: on a table that satisfies its constraints their request is
    committed, and every booking with the given id ends up cancelled,
    whatever its status was. *)
Theorem C8_cancelling_a_settled_booking :
  (forall (now : Z) (w : World) (mine : MyBookings.State) (bookingId : string),
      is_manager (db w) (user w) = false ->
      (forall r, In r (room_bookings (db w)) -> rb_id r = bookingId ->
                 rb_status r <> pending) ->
      db (fst (MyBookings.handleCancel now w mine bookingId)) = db w)
  /\ (forall (now : Z) (w : World) (mine : MyBookings.State)
             (bookingId : string) (i : nat) (r : Booking),
         link w = online ->
         is_manager (db w) (user w) = true ->
         constraints_hold (room_bookings (db w)) ->
         nth_error (room_bookings (db w)) i = Some r ->
         rb_id r = bookingId ->
         option_map rb_status
           (nth_error
              (room_bookings
                 (db (fst (MyBookings.handleCancel now w mine bookingId)))) i)
         = Some cancelled).
Proof.
  split.
  - intros now w mine bookingId Hm Hst.
    unfold MyBookings.handleCancel, from_update, write.
    rewrite (MutationFacts.update_without_target (db w) (user w) bookingId).
    + destruct (link w); simpl; trivial.
      now rewrite WorkflowFacts.loadBookings_db.
    + now apply MutationFacts.nothing_targeted.
  - intros now w mine bookingId i r Hl Hm Hc Hi Hid.
    unfold MyBookings.handleCancel, from_update, write.
    rewrite (MutationFacts.manager_update_commits _ _ _ _ Hm Hc), Hl.
    rewrite WorkflowFacts.loadBookings_db. simpl.
    unfold updated_rows. rewrite nth_error_map, Hi. simpl.
    assert (Ht : targeted (db w) (user w) bookingId r = true).
    { unfold targeted.
      now rewrite Hid, String.eqb_refl, MutationFacts.manager_policy. }
    now rewrite Ht.
Qed.

Lemma C8_witness :
  db (fst (MyBookings.handleCancel
             (Sample.at_ 8 0) (Sample.world [Sample.r1] online "alice")
             MyBookings.initial "r1"))
  = Sample.store [Sample.r1].
Proof.
  apply (proj1 C8_cancelling_a_settled_booking
           (Sample.at_ 8 0) (Sample.world [Sample.r1] online "alice")
           MyBookings.initial "r1"%string).
  - reflexivity.
  - intros r [<-|[]] _. discriminate.
Defined.

(** C8, counterexample.  carol, an admin, has an approved booking of her
    own.  "My Bookings" offers her the cancel button for it, and the
    confirmed cancellation goes through: the booking passes from approved
    to cancelled. *)
Lemma C8_counterexample :
  map rb_status (room_bookings (Sample.store [Sample.c1])) = [approved]
  /\ map rb_status
         (room_bookings (db (fst (Sample.carol_cancels [Sample.c1]))))
     = [cancelled]
  /\ map Toast.description
         (MyBookings.toasts (snd (Sample.carol_cancels [Sample.c1])))
     = ["Booking cancelled successfully"%string].
Proof. repeat split. Qed.



(** C10.  [checkBookingAvailability] gives the same result whatever is
    passed as [excludeBookingId], also when it is left out: the parameter
    is not used, so the check before submission excludes no booking. *)
Theorem C10_excludeBookingId_is_ignored :
  forall (w : World) (roomId : string) (startTime endTime : JsDate)
         (exclude1 exclude2 : option string),
    checkBookingAvailability w roomId startTime endTime exclude1
    = checkBookingAvailability w roomId startTime endTime exclude2.
Proof. reflexivity. Qed.





(** * Further properties of the store *)

Lemma filter_nil_none {A : Type} (p : A -> bool) (l : list A) :
  filter p l = [] -> forall x, In x l -> p x = false.
Proof.
  induction l as [|a l IH]; simpl; [intros _ x []|].
  destruct (p a) eqn:Hpa; [discriminate|].
  intros Hnil x [<-|Hx]; auto.
Qed.

(** Without a role, the policies accept a row only while it is pending. *)
Lemma staff_policy_settled (s : Store) (uid : Uid) (r : Booking) :
  is_manager s uid = false ->
  rb_status r <> pending ->
  update_policy s uid r = false.
Proof.
  unfold is_manager, update_policy. intros -> Hst.
  destruct (rb_status r); try contradiction; simpl;
    now rewrite !andb_false_r.
Qed.

Lemma staff_settle_cases :
  forall (s : Store) (uid : Uid) (target : string) (u : BookingUpdate)
         (st : BookingStatus),
    is_manager s uid = false ->
    set_status u = Some st ->
    st <> pending ->
    (update s uid target u = Data s
     /\ forall r, In r (room_bookings s) -> targeted s uid target r = false)
    \/ (update s uid target u = Fail rls_violation
        /\ exists r, In r (room_bookings s) /\ targeted s uid target r = true).
Proof.
  intros s uid target u st Hm Hu Hst.
  destruct (filter (targeted s uid target) (room_bookings s))
    as [|r touched] eqn:Htouched.
  - left. pose proof (filter_nil_none _ _ Htouched) as Hnone.
    split; trivial. now apply MutationFacts.update_without_target.
  - right.
    assert (Hr : In r (filter (targeted s uid target) (room_bookings s)))
      by (rewrite Htouched; now left).
    apply filter_In in Hr as [Hr Ht].
    split; [|now exists r].
    unfold update. rewrite Htouched. simpl.
    rewrite staff_policy_settled; trivial.
    unfold apply_update. simpl. now rewrite Hu.
Qed.

(** X1.  A caller who is neither leader nor admin cannot move any booking
    out of the pending state: an update that sets a status other than
    pending either matches no row and changes nothing, or is refused by the
    row-level policy.  In both cases the table is as before. *)
Theorem staff_cannot_settle_a_booking :
  forall (s : Store) (uid : Uid) (target : string) (u : BookingUpdate)
         (st : BookingStatus),
    is_manager s uid = false ->
    set_status u = Some st ->
    st <> pending ->
    (update s uid target u = Data s
     /\ forall r, In r (room_bookings s) -> targeted s uid target r = false)
    \/ (update s uid target u = Fail rls_violation
        /\ exists r, In r (room_bookings s) /\ targeted s uid target r = true).
Proof. exact staff_settle_cases. Qed.

Lemma staff_cannot_settle_witness :
  update (Sample.store [Sample.p1]) (Some "alice"%string) "p1"
         (mkUpdate (Some cancelled) None)
  = Fail rls_violation.
Proof.
  assert (Hne : cancelled <> pending) by discriminate.
  destruct (staff_cannot_settle_a_booking
              (Sample.store [Sample.p1]) (Some "alice"%string) "p1"%string
              (mkUpdate (Some cancelled) None) cancelled
              eq_refl eq_refl Hne)
    as [[H _]|[H _]]; [discriminate H | exact H].
Defined.

(** X2.  What a committed insert guarantees: the table grows by exactly the
    new row, placed last; that row is pending, belongs to the caller, has
    [start_time < end_time] and a fresh id, and forms an excluded pair with
    no row that was there. *)
Theorem committed_insert_adds_one_pending_row :
  forall (s s' : Store) (uid : Uid) (newid : string) (row : BookingInsert),
    insert s uid newid row = Data s' ->
    room_bookings s' = room_bookings s ++ [new_row newid row]
    /\ meeting_rooms s' = meeting_rooms s
    /\ profiles s' = profiles s
    /\ user_roles s' = user_roles s
    /\ ins_status row = pending
    /\ uid = Some (ins_user_id row)
    /\ ins_start_time row < ins_end_time row
    /\ (forall o, In o (room_bookings s) -> rb_id o <> newid)
    /\ (forall o, In o (room_bookings s) ->
                  excluded_pair (new_row newid row) o = false).
Proof.
  intros s s' uid newid row H.
  apply TableFacts.insert_commits in H as (-> & Hrls & Hchk & Hfresh & Hex).
  unfold insert_with_check in Hrls. simpl in Hrls.
  apply andb_true_iff in Hrls as [Hu Hst].
  unfold valid_booking_time_range in Hchk. simpl in Hchk.
  apply Z.ltb_lt in Hchk.
  repeat split; trivial.
  - now destruct (ins_status row).
  - destruct uid as [x|]; simpl in Hu; [|discriminate].
    apply String.eqb_eq in Hu. now subst.
Qed.

Lemma committed_insert_witness :
  room_bookings (Sample.store [new_row "r1" Sample.alice_request])
  = [] ++ [new_row "r1" Sample.alice_request].
Proof.
  apply (committed_insert_adds_one_pending_row
           (Sample.store []) (Sample.store [new_row "r1" Sample.alice_request])
           (Some "alice"%string) "r1"%string Sample.alice_request eq_refl).
Defined.

Lemma insert_refused_by_existing_row :
  forall (s : Store) (o : Booking) (uid : Uid) (newid : string)
         (row : BookingInsert),
    In o (room_bookings s) ->
    rb_room_id o = ins_room_id row ->
    ins_start_time row <= rb_end_time o ->
    rb_start_time o <= ins_end_time row ->
    exists e, insert s uid newid row = Fail e.
Proof.
  intros s o uid newid row Ho Hroom H1 H2.
  destruct (insert s uid newid row) as [s'|e] eqn:Hins; [|now exists e].
  apply TableFacts.insert_commits in Hins as (_ & _ & _ & _ & Hex).
  specialize (Hex o Ho). unfold excluded_pair, tsrange_overlap in Hex.
  simpl in Hex. rewrite Hroom, String.eqb_refl in Hex. simpl in Hex.
  apply andb_false_iff in Hex as [H|H]; apply Z.leb_gt in H; lia.
Qed.

(** X3.  A booking of a room blocks its interval whatever its status:
    while a row exists whose inclusive range meets the new interval in the
    same room, no insert of that interval is committed, by any caller and
    under any id.  Cancelled and rejected bookings block like the others,
    and so do intervals that only touch. *)
Theorem any_booking_blocks_its_interval :
  forall (s : Store) (o : Booking) (uid : Uid) (newid : string)
         (row : BookingInsert),
    In o (room_bookings s) ->
    rb_room_id o = ins_room_id row ->
    ins_start_time row <= rb_end_time o ->
    rb_start_time o <= ins_end_time row ->
    exists e, insert s uid newid row = Fail e.
Proof. exact insert_refused_by_existing_row. Qed.

Lemma any_booking_blocks_witness :
  exists e,
    insert (Sample.store [Session.cancelled_c2]) (Some "bob"%string) "n1"
           Sample.touching_request = Fail e.
Proof.
  apply (any_booking_blocks_its_interval
           (Sample.store [Session.cancelled_c2]) Session.cancelled_c2).
  - now left.
  - reflexivity.
  - discriminate.
  - discriminate.
Defined.

(** X4.  A committed update keeps the table in shape: every position holds
    a row with the same id, title, description, room, requester, times and
    audit columns as before, and a row whose id is not the target is
    untouched. *)
Theorem committed_update_keeps_rows_in_place :
  forall (s s' : Store) (uid : Uid) (target : string) (u : BookingUpdate),
    update s uid target u = Data s' ->
    List.length (room_bookings s') = List.length (room_bookings s)
    /\ forall (i : nat) (r : Booking),
        nth_error (room_bookings s) i = Some r ->
        exists r',
          nth_error (room_bookings s') i = Some r'
          /\ rb_id r' = rb_id r
          /\ rb_title r' = rb_title r
          /\ rb_description r' = rb_description r
          /\ rb_room_id r' = rb_room_id r
          /\ rb_user_id r' = rb_user_id r
          /\ rb_start_time r' = rb_start_time r
          /\ rb_end_time r' = rb_end_time r
          /\ rb_approved_by r' = rb_approved_by r
          /\ rb_approved_at r' = rb_approved_at r
          /\ (rb_id r <> target -> r' = r).
Proof.
  intros s s' uid target u H.
  apply TableFacts.update_commits in H as ->. simpl.
  unfold updated_rows. split; [apply length_map|].
  intros i r Hi. rewrite nth_error_map, Hi. simpl.
  eexists. split; [reflexivity|].
  unfold targeted.
  destruct (rb_id r =? target)%string eqn:Hid; simpl.
  - destruct (update_policy s uid r); simpl; repeat split; trivial;
      intros Hne; apply String.eqb_eq in Hid; contradiction.
  - repeat split; trivial.
Qed.

Lemma committed_update_witness :
  List.length
    (room_bookings
       (Sample.store [Sample.booking "p1" "alice" (Sample.at_ 10 0)
                                     (Sample.at_ 11 0) approved]))
  = List.length (room_bookings (Sample.store [Sample.p1])).
Proof.
  apply (committed_update_keeps_rows_in_place
           (Sample.store [Sample.p1])
           (Sample.store [Sample.booking "p1" "alice" (Sample.at_ 10 0)
                                         (Sample.at_ 11 0) approved])
           (Some "carol"%string) "p1"%string Sample.approve eq_refl).
Defined.

(** * Further properties of the handlers *)

Module SortFacts.

Import RowOrder.

Lemma before_trans (o : Order) (a b c : Booking) :
  before o a b -> before o b c -> before o a c.
Proof.
  unfold before, goes_before. destruct o; rewrite !Z.leb_le; lia.
Qed.

Lemma before_total (o : Order) (a b : Booking) :
  goes_before o a b = false -> before o b a.
Proof.
  unfold before, goes_before. destruct o; rewrite Z.leb_gt, Z.leb_le; lia.
Qed.

Lemma in_insert_sorted (o : Order) (r x : Booking) (l : list Booking) :
  In x (insert_sorted o r l) <-> x = r \/ In x l.
Proof.
  induction l as [|y l IH]; simpl.
  - intuition.
  - destruct (goes_before o r y); simpl; [intuition|].
    rewrite IH. intuition.
Qed.

Lemma in_sort_rows (o : Order) (x : Booking) (l : list Booking) :
  In x (sort_rows o l) <-> In x l.
Proof.
  unfold sort_rows. induction l as [|y l IH]; simpl; [reflexivity|].
  rewrite in_insert_sorted, IH. intuition.
Qed.

Lemma insert_sorted_sorted (o : Order) (r : Booking) (l : list Booking) :
  StronglySorted (before o) l ->
  StronglySorted (before o) (insert_sorted o r l).
Proof.
  induction 1 as [|y l Hl IH Hy]; simpl.
  - constructor; constructor.
  - destruct (goes_before o r y) eqn:Hry.
    + constructor; [now constructor|].
      constructor; [exact Hry|].
      rewrite Forall_forall in *. intros z Hz.
      eapply before_trans; [exact Hry | now apply Hy].
    + constructor; trivial.
      rewrite Forall_forall in *. intros z Hz.
      apply in_insert_sorted in Hz as [->|Hz]; [|now apply Hy].
      now apply before_total.
Qed.

Lemma sort_rows_sorted (o : Order) (l : list Booking) :
  StronglySorted (before o) (sort_rows o l).
Proof.
  unfold sort_rows. induction l as [|y l IH]; simpl.
  - constructor.
  - now apply insert_sorted_sorted.
Qed.

(** Dropping rows and relabelling them keeps a list sorted, as long as
    the key of each kept row is carried over. *)
Lemma sorted_filter_map {A B : Type} (R : A -> A -> Prop) (R' : B -> B -> Prop)
  (f : A -> option B) (l : list A) :
  (forall a b a' b', f a = Some a' -> f b = Some b' -> R a b -> R' a' b') ->
  StronglySorted R l ->
  StronglySorted R' (filter_map f l).
Proof.
  intros Hf. induction 1 as [|y l Hl IH Hy]; simpl; [constructor|].
  destruct (f y) as [y'|] eqn:Hfy; trivial.
  constructor; trivial.
  rewrite Forall_forall in *. intros z' Hz'.
  apply CheckerFacts.in_filter_map in Hz' as (z & Hz & Hfz).
  eapply Hf; eauto.
Qed.

Lemma sorted_map {A B : Type} (R : A -> A -> Prop) (R' : B -> B -> Prop)
  (f : A -> B) (l : list A) :
  (forall a b, R a b -> R' (f a) (f b)) ->
  StronglySorted R l ->
  StronglySorted R' (map f l).
Proof.
  intros Hf. induction 1 as [|y l Hl IH Hy]; simpl; constructor; trivial.
  rewrite Forall_forall in *. intros z' Hz'.
  apply in_map_iff in Hz' as (z & <- & Hz). auto.
Qed.

Lemma join_row (s : Store) (r : Booking) (j : JoinedBooking) :
  join s r = Some j -> jb_row j = r.
Proof.
  unfold join. destruct (room_of s r), (profile_of s r); try discriminate.
  now intros [= <-].
Qed.

End SortFacts.

(** X5.  A caller who is neither leader nor admin never changes the store
    by cancelling, whatever the state of the booking.  On a booking of
    their own that is still pending the request is refused by the
    row-level policy and the view shows "Failed to cancel booking", the
    cancel dialog staying open. *)
Theorem staff_cancellation_never_changes_the_store :
  forall (now : Z) (w : World) (mine : MyBookings.State) (bookingId : string),
    is_manager (db w) (user w) = false ->
    db (fst (MyBookings.handleCancel now w mine bookingId)) = db w
    /\ (link w = online ->
        (exists r, In r (room_bookings (db w))
                   /\ rb_id r = bookingId
                   /\ rb_status r = pending
                   /\ user w = Some (rb_user_id r)) ->
        MyBookings.toasts (snd (MyBookings.handleCancel now w mine bookingId))
        = MyBookings.toasts mine ++ [MyBookings.cancel_failed]
        /\ MyBookings.cancelingId
             (snd (MyBookings.handleCancel now w mine bookingId))
           = MyBookings.cancelingId mine).
Proof.
  intros now w mine bookingId Hm.
  assert (Hne : cancelled <> pending) by discriminate.
  destruct (staff_settle_cases
              (db w) (user w) bookingId
              {| set_status := Some cancelled; set_updated_at := Some now |}
              cancelled Hm eq_refl Hne)
    as [[Hup Hnone]|[Hup _]];
    unfold MyBookings.handleCancel, from_update, write; rewrite Hup.
  - split.
    + destruct (link w); simpl; trivial.
      now rewrite WorkflowFacts.loadBookings_db.
    + intros _ (r & Hr & Hid & Hst & Hu). exfalso.
      specialize (Hnone r Hr). unfold targeted, update_policy in Hnone.
      rewrite Hid, String.eqb_refl, Hu, Hst in Hnone. simpl in Hnone.
      now rewrite String.eqb_refl in Hnone.
  - split.
    + now destruct (link w).
    + intros Hl _. rewrite Hl. simpl. auto.
Qed.

Lemma staff_cancellation_witness :
  db (fst (MyBookings.handleCancel
             (Sample.at_ 8 0) (Sample.world [Sample.p1] online "alice")
             MyBookings.initial "p1"))
  = Sample.store [Sample.p1].
Proof.
  apply (staff_cancellation_never_changes_the_store
           (Sample.at_ 8 0) (Sample.world [Sample.p1] online "alice")
           MyBookings.initial "p1"%string eq_refl).
Defined.

(** X6.  On a table that satisfies its constraints the store never refuses
    an approval by a leader or an admin, whether or not the dialog listed
    conflicts: the handler reports success, closes the dialog, clears the
    selection and the conflict list, and every row with the selected id is
    approved. *)
Theorem manager_approval_is_never_refused :
  forall (w : World) (view : AdminApprovalView.State)
         (selected : AdminApprovalView.PendingBooking),
    link w = online ->
    is_manager (db w) (user w) = true ->
    constraints_hold (room_bookings (db w)) ->
    AdminApprovalView.selectedBooking view = Some selected ->
    let w' := fst (AdminApprovalView.handleApprove w view) in
    let view' := snd (AdminApprovalView.handleApprove w view) in
    AdminApprovalView.toasts view'
    = AdminApprovalView.toasts view ++ [AdminApprovalView.approved_toast selected]
    /\ AdminApprovalView.approvalDialogOpen view' = false
    /\ AdminApprovalView.selectedBooking view' = None
    /\ AdminApprovalView.conflicts view' = []
    /\ AdminApprovalView.processingBookingId view' = EmptyString
    /\ forall r, In r (room_bookings (db w')) ->
                 rb_id r = AdminApprovalView.pb_id selected ->
                 rb_status r = approved.
Proof.
  intros w view selected Hl Hm Hc Hsel w' view'. subst w' view'.
  unfold AdminApprovalView.handleApprove. rewrite Hsel.
  unfold from_update, write.
  rewrite (MutationFacts.manager_update_commits _ _ _ _ Hm Hc), Hl.
  unfold AdminApprovalView.fetchPendingBookings, from_select_joined, over_link.
  simpl. rewrite Hl. simpl. repeat split.
  intros r Hr Hid. unfold updated_rows in Hr.
  apply in_map_iff in Hr as (r0 & <- & Hr0).
  rewrite TableFacts.updated_row_id in Hid.
  unfold targeted.
  now rewrite Hid, String.eqb_refl, MutationFacts.manager_policy.
Qed.

Lemma manager_approval_witness :
  AdminApprovalView.approvalDialogOpen
    (snd (AdminApprovalView.handleApprove
            (Sample.world [Sample.p1] online "carol")
            (Sample.confirming Sample.p1)))
  = false.
Proof.
  apply (manager_approval_is_never_refused
           (Sample.world [Sample.p1] online "carol")
           (Sample.confirming Sample.p1) (Sample.listed Sample.p1)
           eq_refl eq_refl).
  - simpl. constructor.
    + repeat constructor. intros [].
    + intros r [<-|[]]. reflexivity.
    + intros a b [<-|[]] [<-|[]] H. now contradiction H.
  - reflexivity.
Defined.

Lemma pending_rows_after_settling (s : Store) (uid : Uid) (target : string)
  (u : BookingUpdate) (st : BookingStatus) (j : JoinedBooking) :
  is_manager s uid = true ->
  set_status u = Some st ->
  st <> pending ->
  In j (select_joined (with_bookings s (updated_rows s uid target u)) uid
                      AdminApprovalView.pending_query) ->
  rb_id (jb_row j) <> target.
Proof.
  intros Hm Hu Hst Hj Hid.
  unfold select_joined in Hj.
  apply CheckerFacts.in_filter_map in Hj as (r & Hr & Hjoin).
  apply SortFacts.join_row in Hjoin. subst r.
  unfold select in Hr. simpl in Hr.
  apply SortFacts.in_sort_rows in Hr.
  apply filter_In in Hr as [Hr Hpass].
  rewrite andb_true_r in Hpass. apply andb_true_iff in Hpass as [_ Hpending].
  unfold updated_rows in Hr. apply in_map_iff in Hr as (r0 & Heq & Hr0).
  rewrite <- Heq in Hid, Hpending.
  rewrite TableFacts.updated_row_id in Hid.
  assert (Ht : targeted s uid target r0 = true).
  { unfold targeted.
    now rewrite Hid, String.eqb_refl, MutationFacts.manager_policy. }
  rewrite Ht in Hpending. unfold apply_update in Hpending. simpl in Hpending.
  rewrite Hu in Hpending. now destruct st.
Qed.

(** X7.  Once a leader or an admin has rejected a booking, or approved the
    selected one, on a table that satisfies its constraints, the refreshed
    list of pending bookings no longer contains it. *)
Theorem settled_booking_leaves_the_pending_list :
  forall (w : World) (view : AdminApprovalView.State),
    link w = online ->
    is_manager (db w) (user w) = true ->
    constraints_hold (room_bookings (db w)) ->
    (forall (bookingId : string) (pb : AdminApprovalView.PendingBooking),
        In pb (AdminApprovalView.bookings
                 (snd (AdminApprovalView.handleReject w view bookingId))) ->
        AdminApprovalView.pb_id pb <> bookingId)
    /\ (forall (selected pb : AdminApprovalView.PendingBooking),
           AdminApprovalView.selectedBooking view = Some selected ->
           In pb (AdminApprovalView.bookings
                    (snd (AdminApprovalView.handleApprove w view))) ->
           AdminApprovalView.pb_id pb <> AdminApprovalView.pb_id selected).
Proof.
  intros w view Hl Hm Hc. split.
  - intros bookingId pb.
    unfold AdminApprovalView.handleReject, from_update, write.
    rewrite (MutationFacts.manager_update_commits _ _ _ _ Hm Hc), Hl.
    unfold AdminApprovalView.fetchPendingBookings, from_select_joined,
      over_link. simpl. rewrite Hl. simpl.
    intros Hpb. apply in_map_iff in Hpb as (j & <- & Hj).
    assert (Hne : rejected <> pending) by discriminate.
    exact (pending_rows_after_settling
             (db w) (user w) bookingId
             {| set_status := Some rejected; set_updated_at := None |}
             rejected j Hm eq_refl Hne Hj).
  - intros selected pb Hsel.
    unfold AdminApprovalView.handleApprove. rewrite Hsel.
    unfold from_update, write.
    rewrite (MutationFacts.manager_update_commits _ _ _ _ Hm Hc), Hl.
    unfold AdminApprovalView.fetchPendingBookings, from_select_joined,
      over_link. simpl. rewrite Hl. simpl.
    intros Hpb. apply in_map_iff in Hpb as (j & <- & Hj).
    assert (Hne : approved <> pending) by discriminate.
    exact (pending_rows_after_settling
             (db w) (user w) (AdminApprovalView.pb_id selected)
             {| set_status := Some approved; set_updated_at := None |}
             approved j Hm eq_refl Hne Hj).
Qed.

Lemma sample_p1_constraints : constraints_hold [Sample.p1].
Proof.
  constructor.
  - repeat constructor. intros [].
  - intros r [<-|[]]. reflexivity.
  - intros a b [<-|[]] [<-|[]] H. now contradiction H.
Defined.

Lemma settled_booking_witness :
  ~ In (Sample.listed Sample.p1)
       (AdminApprovalView.bookings
          (snd (AdminApprovalView.handleReject
                  (Sample.world [Sample.p1] online "carol")
                  (Sample.approval_view [Sample.p1]) "p1"))).
Proof.
  intros Hin.
  exact (proj1 (settled_booking_leaves_the_pending_list
                  (Sample.world [Sample.p1] online "carol")
                  (Sample.approval_view [Sample.p1])
                  eq_refl eq_refl sample_p1_constraints)
               "p1"%string (Sample.listed Sample.p1) Hin eq_refl).
Defined.

(** X8.  When its query is served, [fetchPendingBookings] lists exactly the
    pending bookings the caller may see whose room and requester exist,
    in ascending order of start time, and ends the loading state; when the
    query fails the list shown so far stays and one "Failed to load pending
    bookings" toast is raised. *)
Theorem pending_list_is_sorted_and_complete :
  forall (w : World) (view : AdminApprovalView.State),
    let view' := snd (AdminApprovalView.fetchPendingBookings w view) in
    AdminApprovalView.loading view' = false
    /\ (link w = online ->
        StronglySorted
          (fun a b => AdminApprovalView.pb_start_time a
                      <= AdminApprovalView.pb_start_time b)
          (AdminApprovalView.bookings view')
        /\ forall pb,
            In pb (AdminApprovalView.bookings view') <->
            exists r j,
              In r (room_bookings (db w))
              /\ rb_status r = pending
              /\ select_using (db w) (user w) r = true
              /\ join (db w) r = Some j
              /\ pb = AdminApprovalView.format j)
    /\ (link w <> online ->
        AdminApprovalView.bookings view' = AdminApprovalView.bookings view
        /\ AdminApprovalView.toasts view'
           = AdminApprovalView.toasts view ++ [AdminApprovalView.load_failed]).
Proof.
  intros w view view'. subst view'.
  unfold AdminApprovalView.fetchPendingBookings, from_select_joined, over_link.
  split; [|split].
  - now destruct (link w).
  - intros Hl. rewrite Hl. simpl. split.
    + apply SortFacts.sorted_map
        with (R := fun a b => rb_start_time (jb_row a) <= rb_start_time (jb_row b));
        [trivial|].
      unfold select_joined, select. simpl.
      apply SortFacts.sorted_filter_map with (R := RowOrder.before ascending).
      * intros a b a' b' Ha Hb Hab.
        apply SortFacts.join_row in Ha, Hb. subst.
        unfold RowOrder.before, goes_before in Hab. now apply Z.leb_le.
      * apply SortFacts.sort_rows_sorted.
    + intros pb. rewrite in_map_iff. split.
      * intros (j & <- & Hj). unfold select_joined in Hj.
        apply CheckerFacts.in_filter_map in Hj as (r & Hr & Hjoin).
        unfold select in Hr. simpl in Hr.
        apply SortFacts.in_sort_rows, filter_In in Hr as [Hr Hpass].
        rewrite andb_true_r in Hpass.
        apply andb_true_iff in Hpass as [Hvis Hpending].
        exists r, j. repeat split; trivial.
        now destruct (rb_status r).
      * intros (r & j & Hr & Hst & Hvis & Hjoin & ->).
        exists j. split; trivial. unfold select_joined.
        apply CheckerFacts.in_filter_map. exists r. split; trivial.
        unfold select. simpl. apply SortFacts.in_sort_rows, filter_In.
        split; trivial. now rewrite Hvis, Hst.
  - intros Hl. destruct (link w); [contradiction| |]; simpl; auto.
Qed.

Lemma pending_list_witness :
  map AdminApprovalView.pb_id
      (AdminApprovalView.bookings
         (snd (AdminApprovalView.fetchPendingBookings
                 (Sample.world [Sample.p2; Sample.p1] online "carol")
                 AdminApprovalView.initial)))
  = ["p1"%string; "p2"%string]
  /\ StronglySorted
       (fun a b => AdminApprovalView.pb_start_time a
                   <= AdminApprovalView.pb_start_time b)
       (AdminApprovalView.bookings
          (snd (AdminApprovalView.fetchPendingBookings
                  (Sample.world [Sample.p2; Sample.p1] online "carol")
                  AdminApprovalView.initial))).
Proof.
  split; [reflexivity|].
  apply (proj1 (proj2 (pending_list_is_sorted_and_complete
                         (Sample.world [Sample.p2; Sample.p1] online "carol")
                         AdminApprovalView.initial))).
  reflexivity.
Defined.

(** X9.  When its query is served for a signed-in user, [loadBookings]
    lists exactly that user's bookings, of every status, in descending
    order of start time; with nobody signed in it sends nothing and only
    ends the loading state. *)
Theorem own_bookings_are_listed_latest_first :
  forall (w : World) (mine : MyBookings.State),
    (forall userId,
        link w = online ->
        user w = Some userId ->
        let mine' := snd (MyBookings.loadBookings w mine) in
        StronglySorted
          (fun a b => rb_start_time (MyBookings.row b)
                      <= rb_start_time (MyBookings.row a))
          (MyBookings.bookings mine')
        /\ (forall r, In r (map MyBookings.row (MyBookings.bookings mine')) <->
                      In r (room_bookings (db w)) /\ rb_user_id r = userId)
        /\ MyBookings.loading mine' = false)
    /\ (user w = None ->
        MyBookings.loadBookings w mine = (w, MyBookings.setLoading mine false)).
Proof.
  intros w mine. split.
  - intros userId Hl Hu mine'. subst mine'.
    unfold MyBookings.loadBookings, from_select, over_link.
    rewrite Hu, Hl. simpl. split; [|split; trivial].
    + apply SortFacts.sorted_map with (R := RowOrder.before descending).
      * intros a b Hab. simpl.
        unfold RowOrder.before, goes_before in Hab. now apply Z.leb_le.
      * unfold select. simpl. apply SortFacts.sort_rows_sorted.
    + intros r. rewrite map_map. simpl. rewrite map_id.
      unfold select. simpl. rewrite SortFacts.in_sort_rows, filter_In.
      rewrite andb_true_r, andb_true_iff, String.eqb_eq.
      split; [intuition|]. intros [Hr Hown]. repeat split; trivial.
      unfold select_using, uid_is. rewrite Hown, String.eqb_refl.
      now rewrite !orb_true_r.
  - intros Hu. unfold MyBookings.loadBookings. now rewrite Hu.
Qed.

Lemma own_bookings_witness :
  map (fun b => rb_id (MyBookings.row b))
      (MyBookings.bookings
         (snd (MyBookings.loadBookings
                 (Sample.world [Sample.p1; Sample.r2; Sample.c1] online "alice")
                 MyBookings.initial)))
  = ["p1"%string]
  /\ MyBookings.loading
       (snd (MyBookings.loadBookings
               (Sample.world [Sample.p1; Sample.r2; Sample.c1] online "alice")
               MyBookings.initial)) = false.
Proof.
  split; [reflexivity|].
  apply (proj1 (own_bookings_are_listed_latest_first
                  (Sample.world [Sample.p1; Sample.r2; Sample.c1] online "alice")
                  MyBookings.initial) "alice"%string eq_refl eq_refl).
Defined.

(** X10.  The Upcoming and Past tabs split the loaded bookings: every
    booking is in exactly one of the two lists, and each row of the
    Upcoming table gets the cancel button, whether the booking is pending,
    approved or rejected. *)
Theorem upcoming_and_past_split_the_bookings :
  forall (zone now : Z) (mine : MyBookings.State),
    (forall b, In b (MyBookings.bookings mine) <->
               In b (MyBookings.getUpcomingBookings zone now mine)
               \/ In b (MyBookings.getPastBookings zone now mine))
    /\ (forall b, In b (MyBookings.getUpcomingBookings zone now mine) ->
                  ~ In b (MyBookings.getPastBookings zone now mine))
    /\ (List.length (MyBookings.getUpcomingBookings zone now mine)
        + List.length (MyBookings.getPastBookings zone now mine)
        = List.length (MyBookings.bookings mine))%nat
    /\ (forall b, In b (MyBookings.getUpcomingBookings zone now mine) ->
                  MyBookings.cancel_button zone now b = true).
Proof.
  intros zone now mine.
  unfold MyBookings.getUpcomingBookings, MyBookings.getPastBookings,
    MyBookings.cancel_button.
  repeat split.
  - intros Hb.
    destruct (MyBookings.isPast now (MyBookings.ends zone b)) eqn:Hp;
      destruct (status_eqb (rb_status (MyBookings.row b)) cancelled) eqn:Hs;
      [right|right|right|left]; apply filter_In; now rewrite Hp, Hs.
  - intros [Hb|Hb]; now apply filter_In in Hb.
  - intros b Hu Hp. apply filter_In in Hu as [_ Hu], Hp as [_ Hp].
    destruct (MyBookings.isPast now _), (status_eqb _ cancelled);
      discriminate.
  - induction (MyBookings.bookings mine) as [|b l IH]; simpl; trivial.
    destruct (MyBookings.isPast now _), (status_eqb _ cancelled); simpl; lia.
  - intros b Hb. apply filter_In in Hb as [_ Hb].
    now rewrite andb_comm.
Qed.



(** X12.  The answer of [checkBookingAvailability] does not depend on who
    is signed in: it looks at approved bookings only, and those every
    caller may read. *)
Theorem availability_is_the_same_for_every_caller :
  forall (w : World) (u1 u2 : Uid) (roomId : string)
         (startTime endTime : JsDate) (ex : option string),
    snd (checkBookingAvailability (Session.signed_in w u1) roomId
                                  startTime endTime ex)
    = snd (checkBookingAvailability (Session.signed_in w u2) roomId
                                    startTime endTime ex).
Proof.
  intros w u1 u2 roomId startTime endTime ex.
  assert (Hsame : forall st en,
             found (db w) u1 roomId st en None [approved]
             = found (db w) u2 roomId st en None [approved]).
  { intros st en. unfold found. f_equal. apply filter_ext. intros r.
    unfold conflicting, select_using. simpl.
    destruct (status_eqb (rb_status r) approved),
      (rb_room_id r =? roomId)%string; simpl; trivial;
      now rewrite !andb_false_r. }
  destruct startTime as [st|], endTime as [en|]; trivial.
  destruct (link w) as [|e|reason] eqn:Hl.
  - rewrite !CheckerFacts.checkBookingAvailability_online by exact Hl.
    simpl. now rewrite Hsame.
  - rewrite !CheckerFacts.checkBookingAvailability_offline;
      trivial; simpl; rewrite Hl; discriminate.
  - rewrite !CheckerFacts.checkBookingAvailability_offline;
      trivial; simpl; rewrite Hl; discriminate.
Qed.

Lemma upcoming_rows_witness :
  MyBookings.cancel_button
    0 (Sample.at_ 8 0)
    (MyBookings.mkBooking Sample.r1 (Some ("Room X"%string, 8)))
  = true.
Proof.
  apply (proj2 (proj2 (proj2 (upcoming_and_past_split_the_bookings
                                0 (Sample.at_ 8 0)
                                (Session.my_view [Sample.r1] "alice"))))).
  now left.
Defined.

(** X13.  A date that does not parse makes both checkers answer "no
    conflict" without sending any request.  In the booking form this
    happens when the end time is filled in and the end date is not: the
    check sends nothing and erases whatever conflict was recorded. *)
Theorem unparseable_date_reads_as_available :
  (forall (w : World) (roomId exId : string) (d : JsDate) (ex : option string),
      checkBookingAvailability w roomId InvalidDate d ex = (w, None)
      /\ checkBookingAvailability w roomId d InvalidDate ex = (w, None)
      /\ getConflictingBookings w roomId InvalidDate d exId = (w, [])
      /\ getConflictingBookings w roomId d InvalidDate exId = (w, []))
  /\ (forall (w : World) (form : CreateBookingDialog.State) (sd stt et : Z),
         Js.is_empty (CreateBookingDialog.roomId form) = false ->
         CreateBookingDialog.startDate form = Some sd ->
         CreateBookingDialog.startTime form = Some stt ->
         CreateBookingDialog.endDate form = None ->
         CreateBookingDialog.endTime form = Some et ->
         fst (CreateBookingDialog.checkAvailability w form) = w
         /\ CreateBookingDialog.conflictingBooking
              (snd (CreateBookingDialog.checkAvailability w form)) = None).
Proof.
  split.
  - intros w roomId exId d ex. repeat split; destruct d; reflexivity.
  - intros w form sd stt et Hroom Hsd Hstt Hed Het.
    unfold CreateBookingDialog.checkAvailability.
    rewrite Hroom, Hsd, Hstt. simpl. rewrite Het.
    unfold CreateBookingDialog.datetime. simpl. rewrite Hed, Hsd, Hstt.
    simpl. auto.
Qed.

Lemma unparseable_date_witness :
  fst (CreateBookingDialog.checkAvailability
         (Sample.world [Sample.r1] online "bob") Session.half_filled_form)
  = Sample.world [Sample.r1] online "bob".
Proof.
  apply (proj2 unparseable_date_reads_as_available
           (Sample.world [Sample.r1] online "bob") Session.half_filled_form
           0 (Sample.at_ 10 30) (Sample.at_ 11 30)
           eq_refl eq_refl eq_refl eq_refl eq_refl).
Defined.




(** In a browser ahead of UTC the start date of a booking of the current
    day, read as midnight UTC, lies after the local midnight, so the test
    for past times of today is skipped: at 19:00 in a zone seven hours
    ahead, the form for 10:00 to 11:00 of the same day passes. *)
Lemma ahead_of_utc_a_past_start_passes :
  CreateBookingDialog.validation_message 420 (Sample.at_ 12 0) Sample.bob_form
  = None
  /\ CreateBookingDialog.datetime
       420 (CreateBookingDialog.startDate Sample.bob_form)
       (CreateBookingDialog.startTime Sample.bob_form)
     = Instant (Sample.at_ 3 0)
  /\ Sample.at_ 3 0 < Sample.at_ 12 0.
Proof. repeat split. Qed.






(** X17.  The display name built from a profile is never empty; a NULL
    first name is printed as the word "null" at the start of the name
    instead of falling back to "Unknown User"; the fallback is shown when
    both names consist of white space only. *)
Theorem display_name_of_missing_names :
  (forall first last, Js.is_empty (Js.display_name first last) = false)
  /\ (forall last, String.prefix "null" (Js.display_name None last) = true)
  /\ (forall first last : string,
         Js.trim first = EmptyString ->
         Js.trim last = EmptyString ->
         Js.display_name (Some first) (Some last) = "Unknown User"%string).
Proof.
  split; [|split].
  - intros first last. unfold Js.display_name, Js.or_else.
    destruct (Js.is_empty (Js.trim _)) eqn:H; trivial.
  - intros last. unfold Js.display_name, Js.trim. simpl.
    now destruct (Js.is_empty (Js.trimEnd (Js.interpolate last))).
  - intros first last Hf Hl.
    assert (Hstart : forall s, Js.trimEnd s = EmptyString ->
                               Js.trimStart s = EmptyString).
    { induction s as [|c s IH]; simpl; trivial.
      destruct (Js.is_space c) eqn:Hc; simpl.
      - destruct (Js.is_empty (Js.trimEnd s)) eqn:He; [|discriminate].
        intros _. apply IH. now destruct (Js.trimEnd s).
      - discriminate. }
    assert (Hblank : forall s, Js.trim s = EmptyString ->
                               Js.trimStart s = EmptyString).
    { intros s Hs. unfold Js.trim in Hs.
      assert (Hidem : forall t, Js.trimStart (Js.trimStart t) = Js.trimStart t).
      { induction t as [|c t IH]; simpl; trivial.
        destruct (Js.is_space c) eqn:Hc; trivial. simpl. now rewrite Hc. }
      rewrite <- Hidem. now apply Hstart. }
    assert (Happ : forall s t, Js.trimStart s = EmptyString ->
                               Js.trimStart (s ++ t)%string = Js.trimStart t).
    { induction s as [|c s IH]; simpl; trivial. intros t.
      destruct (Js.is_space c); [apply IH | discriminate]. }
    unfold Js.display_name, Js.trim. simpl.
    rewrite Happ by now apply Hblank.
    simpl. rewrite (Hblank last Hl). reflexivity.
Qed.

Lemma display_name_witness :
  Js.display_name (Some "  "%string) (Some " "%string) = "Unknown User"%string.
Proof.
  apply (proj2 (proj2 display_name_of_missing_names)); reflexivity.
Defined.

(** * The weekly calendar *)



Lemma slot_end (zone date hour : Z) :
  0 <= hour < 24 ->
  BookingCalendarView.setHours zone (BookingCalendarView.setHours zone date hour)
                               (hour + 1)
  = BookingCalendarView.setHours zone date hour + 60.
Proof.
  intros Hh.
  unfold BookingCalendarView.setHours, BookingCalendarView.startOfDay,
    BookingCalendarView.day.
  pose proof (Z.div_mod (date + zone) 1440 ltac:(lia)) as Hd.
  assert (Hmod : (date + zone - (date + zone) mod 1440 - zone + hour * 60
                  + zone) mod 1440 = hour * 60).
  { replace (date + zone - (date + zone) mod 1440 - zone + hour * 60 + zone)
      with (hour * 60 + ((date + zone) / 1440) * 1440) by lia.
    rewrite Z_mod_plus_full. apply Z.mod_small. lia. }
  rewrite Hmod. lia.
Qed.

(** X19.  A cell of the week view shows a booking exactly when one of the
    fetched bookings of that room overlaps the hour of the cell, both read
    on the clock of the browser: a booking shown starts before the hour
    ends and ends after it begins, and when the cell is empty every
    fetched booking of the room that starts before the end of the hour
    ends by its beginning. *)
Theorem calendar_slot_shows_an_overlapping_booking :
  forall (zone : Z) (st : BookingCalendarView.State) (roomId : string)
         (date hour : Z),
    0 <= hour < 24 ->
    let slot := (date + zone) - (date + zone) mod 1440 - zone + hour * 60 in
    (forall b,
        BookingCalendarView.getBookingForSlot zone st roomId date hour
        = Some b ->
        In b (BookingCalendarView.bookings st)
        /\ BookingCalendarView.cv_room_id b = roomId
        /\ BookingCalendarView.cv_start_time b - zone < slot + 60
        /\ slot < BookingCalendarView.cv_end_time b - zone)
    /\ (BookingCalendarView.getBookingForSlot zone st roomId date hour = None ->
        forall b,
          In b (BookingCalendarView.bookings st) ->
          BookingCalendarView.cv_room_id b = roomId ->
          BookingCalendarView.cv_start_time b - zone < slot + 60 ->
          BookingCalendarView.cv_end_time b - zone <= slot).
Proof.
  intros zone st roomId date hour Hh slot.
  unfold BookingCalendarView.getBookingForSlot.
  rewrite slot_end by exact Hh.
  unfold BookingCalendarView.setHours, BookingCalendarView.startOfDay,
    BookingCalendarView.day. fold slot.
  split.
  - intros b Hfind. apply find_some in Hfind as [Hb Hpass].
    rewrite !andb_true_iff, String.eqb_eq, Z.ltb_lt, Z.gtb_ltb, Z.ltb_lt
      in Hpass.
    intuition.
  - intros Hnone b Hb Hroom Hstart.
    pose proof (find_none _ _ Hnone b Hb) as Hfail. simpl in Hfail.
    rewrite Hroom, String.eqb_refl, (proj2 (Z.ltb_lt _ _) Hstart) in Hfail.
    simpl in Hfail. rewrite Z.gtb_ltb in Hfail. now apply Z.ltb_ge in Hfail.
Qed.

Lemma calendar_slot_witness :
  BookingCalendarView.cv_start_time
    (BookingCalendarView.format
       (mkJoined Sample.r1 "Room X" (Some "Alice"%string) (Some "Ng"%string)))
  - 0
  < (0 + 0) - (0 + 0) mod 1440 - 0 + 10 * 60 + 60.
Proof.
  apply (proj1 (calendar_slot_shows_an_overlapping_booking
                  0
                  (BookingCalendarView.fetchBookings
                     (Sample.world [Sample.r1; Sample.r2] online "bob")
                     Session.calendar)
                  "room-x"%string 0 10 ltac:(lia))
               (BookingCalendarView.format
                  (mkJoined Sample.r1 "Room X" (Some "Alice"%string)
                            (Some "Ng"%string)))
               eq_refl).
Defined.

(** X20.  In the day view, with the week starting at a midnight of the
    browser, every fetched booking that starts within the week on the
    clock of the browser is listed under exactly one of the seven days:
    the day on which it starts. *)
Theorem day_view_lists_a_booking_under_one_day :
  forall (zone : Z) (st : BookingCalendarView.State)
         (b : BookingCalendarView.Booking),
    (BookingCalendarView.weekStart st + zone) mod 1440 = 0 ->
    BookingCalendarView.weekStart st
      <= BookingCalendarView.cv_start_time b - zone
      < BookingCalendarView.weekStart st + 7 * 1440 ->
    In b (BookingCalendarView.bookings st) ->
    exists d,
      In d (BookingCalendarView.weekDays st)
      /\ In b (BookingCalendarView.dayBookings
                 zone st (BookingCalendarView.cv_room_id b) d)
      /\ forall d',
          In d' (BookingCalendarView.weekDays st) ->
          In b (BookingCalendarView.dayBookings
                  zone st (BookingCalendarView.cv_room_id b) d') ->
          d' = d.
Proof.
  intros zone st b Hal [H1 H2] Hb.
  set (ws := BookingCalendarView.weekStart st) in *.
  set (t := BookingCalendarView.cv_start_time b - zone) in *.
  assert (Hday : forall i : nat,
             (ws + Z.of_nat i * 1440 + zone) mod 1440 = 0).
  { intros i.
    replace (ws + Z.of_nat i * 1440 + zone)
      with (ws + zone + Z.of_nat i * 1440) by lia.
    rewrite Z_mod_plus_full. exact Hal. }
  assert (Hsame : forall i : nat,
             BookingCalendarView.isSameDay zone t (ws + Z.of_nat i * 1440)
             = true
             <-> (t + zone) - (t + zone) mod 1440
                 = ws + zone + Z.of_nat i * 1440).
  { intros i.
    unfold BookingCalendarView.isSameDay, BookingCalendarView.startOfDay,
      BookingCalendarView.day.
    rewrite Z.eqb_eq, Hday. lia. }
  assert (Hin : forall d,
             In d (BookingCalendarView.weekDays st) <->
             exists i : nat, (i < 7)%nat /\ d = ws + Z.of_nat i * 1440).
  { intros d. unfold BookingCalendarView.weekDays, BookingCalendarView.day.
    rewrite in_map_iff. split.
    - intros (i & <- & Hi). apply in_seq in Hi. exists i. split; [lia|].
      reflexivity.
    - intros (i & Hi & ->). exists i. split; [reflexivity|].
      apply in_seq. lia. }
  pose proof (Z.div_mod (t + zone) 1440 ltac:(lia)) as Ht.
  pose proof (Z.mod_pos_bound (t + zone) 1440 ltac:(lia)) as Htm.
  pose proof (Z.div_mod (ws + zone) 1440 ltac:(lia)) as Hws.
  rewrite Hal in Hws.
  set (i := Z.to_nat ((t + zone) / 1440 - (ws + zone) / 1440)).
  assert (Hi : (i < 7)%nat
               /\ (t + zone) - (t + zone) mod 1440
                  = ws + zone + Z.of_nat i * 1440).
  { subst i. split; [lia|]. rewrite Z2Nat.id by lia. lia. }
  exists (ws + Z.of_nat i * 1440). repeat split.
  - apply Hin. exists i. tauto.
  - unfold BookingCalendarView.dayBookings. apply filter_In. split; trivial.
    rewrite String.eqb_refl. simpl. fold t. apply Hsame. tauto.
  - intros d' Hd' Hlisted. apply Hin in Hd' as (i' & _ & ->).
    unfold BookingCalendarView.dayBookings in Hlisted.
    apply filter_In in Hlisted as [_ Hpass].
    rewrite String.eqb_refl in Hpass. simpl in Hpass. fold t in Hpass.
    apply Hsame in Hpass. lia.
Qed.

Lemma day_view_witness :
  exists d,
    In d (BookingCalendarView.weekDays
            (BookingCalendarView.fetchBookings
               (Sample.world [Sample.r1] online "bob") Session.calendar))
    /\ In (BookingCalendarView.format
             (mkJoined Sample.r1 "Room X" (Some "Alice"%string)
                       (Some "Ng"%string)))
          (BookingCalendarView.dayBookings
             0
             (BookingCalendarView.fetchBookings
                (Sample.world [Sample.r1] online "bob") Session.calendar)
             "room-x" d).
Proof.
  destruct (day_view_lists_a_booking_under_one_day
              0
              (BookingCalendarView.fetchBookings
                 (Sample.world [Sample.r1] online "bob") Session.calendar)
              (BookingCalendarView.format
                 (mkJoined Sample.r1 "Room X" (Some "Alice"%string)
                           (Some "Ng"%string)))
              eq_refl
              ltac:(vm_compute; split; [discriminate | reflexivity])
              (or_introl eq_refl))
    as (d & Hd & Hlisted & _).
  exists d. split; assumption.
Defined.

(** * Roles, column positions and remaining handler paths *)

Lemma role_eqb_refl (r : UserRole) : role_eqb r r = true.
Proof. now destruct r. Qed.

(** X21.  The role the client works with is never higher than what the
    store grants: [getUserRole] returns admin or leader only over a working
    connection and only when the [user_roles] relation holds that role for
    the user; in every other case (failed query, no row, several rows) it
    returns staff.  So the Approvals tab is rendered only for a caller
    whom the booking policies treat as leader or admin. *)
Theorem client_role_is_backed_by_the_store :
  forall (readable : string * UserRole -> bool) (w : World),
    (forall userId r,
        Auth.getUserRole readable w userId = Auth.Returned r ->
        r <> staff ->
        link w = online /\ has_role (db w) (Some userId) r = true)
    /\ (link w <> online -> Auth.loadRole readable w = staff)
    /\ (Auth.approvals_tab (Auth.loadRole readable w) = true ->
        is_manager (db w) (user w) = true).
Proof.
  intros readable w.
  assert (Hget : forall userId r,
             Auth.getUserRole readable w userId = Auth.Returned r ->
             r <> staff ->
             link w = online /\ has_role (db w) (Some userId) r = true).
  { intros userId r. unfold Auth.getUserRole.
    destruct (link w); [|intros [= <-] H; now contradiction H | discriminate].
    destruct (Auth.single _) as [p|] eqn:Hp;
      [|intros [= <-] H; now contradiction H].
    intros [= <-] _. split; trivial.
    unfold Auth.single in Hp.
    destruct (filter _ (user_roles (db w))) as [|x [|y l]] eqn:Hf;
      try discriminate.
    injection Hp as ->.
    assert (Hin : In p (filter (fun q => readable q && (fst q =? userId)%string)
                               (user_roles (db w))))
      by (rewrite Hf; now left).
    apply filter_In in Hin as [Hin Hpass].
    apply andb_true_iff in Hpass as [_ Hid].
    unfold has_role. apply existsb_exists. exists p. split; trivial.
    now rewrite Hid, role_eqb_refl. }
  split; [exact Hget | split].
  - intros Hl. unfold Auth.loadRole, Auth.getUserRole.
    destruct (user w); trivial.
    destruct (link w); [contradiction| |]; reflexivity.
  - unfold Auth.loadRole, Auth.approvals_tab, is_manager.
    destruct (user w) as [userId|]; [|discriminate].
    destruct (Auth.getUserRole readable w userId) as [r|reason] eqn:Hr;
      [|discriminate].
    intros Htab.
    destruct r; try discriminate.
    + destruct (Hget userId admin Hr ltac:(discriminate)) as [_ ->].
      apply orb_true_r.
    + destruct (Hget userId leader Hr ltac:(discriminate)) as [_ ->].
      reflexivity.
Qed.

Lemma client_role_witness :
  is_manager (db (Sample.world [] online "carol"))
             (user (Sample.world [] online "carol")) = true.
Proof.
  apply (proj2 (proj2 (client_role_is_backed_by_the_store
                         (fun _ => true) (Sample.world [] online "carol")))).
  reflexivity.
Defined.

(** X22.  The position given to a new column of the task board is greater
    than the position of every existing column and is never negative: the
    new column comes last, and on an empty board it gets position 0.  A
    blank name creates nothing. *)
Theorem new_column_comes_last :
  forall (boardId name : string) (columns : list TaskBoard.TaskColumn),
    (forall c, In c columns ->
               TaskBoard.tc_position c < TaskBoard.newPosition columns)
    /\ 0 <= TaskBoard.newPosition columns
    /\ TaskBoard.newPosition [] = 0
    /\ (Js.trim name = EmptyString ->
        TaskBoard.column_to_create boardId name columns = None)
    /\ (Js.trim name <> EmptyString ->
        TaskBoard.column_to_create boardId name columns
        = Some (boardId, name, TaskBoard.newPosition columns, false)).
Proof.
  intros boardId name columns.
  assert (Hmax : forall l : list Z,
             -1 <= fold_right Z.max (-1) l
             /\ forall x, In x l -> x <= fold_right Z.max (-1) l).
  { induction l as [|y l [IH1 IH2]]; simpl.
    - split; [lia | intros x []].
    - split; [lia|]. intros x [<-|Hx]; [lia|]. specialize (IH2 x Hx). lia. }
  unfold TaskBoard.newPosition, TaskBoard.column_to_create.
  destruct (Hmax (map TaskBoard.tc_position columns)) as [Hlow Hall].
  repeat split.
  - intros c Hc.
    specialize (Hall (TaskBoard.tc_position c) (in_map _ _ _ Hc)). lia.
  - lia.
  - intros ->. reflexivity.
  - intros Hne. destruct (Js.trim name); [now contradiction Hne | reflexivity].
Qed.

Lemma new_column_witness :
  TaskBoard.tc_position (TaskBoard.mkColumn "c3" "Done" 3 true "b1")
  < TaskBoard.newPosition
      [TaskBoard.mkColumn "c0" "To Do" 0 true "b1";
       TaskBoard.mkColumn "c3" "Done" 3 true "b1"].
Proof.
  apply (proj1 (new_column_comes_last
                  "b1"%string "Blocked"%string
                  [TaskBoard.mkColumn "c0" "To Do" 0 true "b1";
                   TaskBoard.mkColumn "c3" "Done" 3 true "b1"])).
  right. now left.
Defined.

(** X23.  An approval that does not get through the connection changes
    nothing but the toasts: the store, the selection, the conflict list
    and the open dialog stay as they were, the buttons are released, and
    one destructive "Error" toast is raised whose text is the error's
    message, or "Failed to approve booking" when that message is empty. *)
Theorem failed_approval_keeps_the_dialog :
  forall (w : World) (view : AdminApprovalView.State)
         (selected : AdminApprovalView.PendingBooking) (reason : string),
    AdminApprovalView.selectedBooking view = Some selected ->
    (exists e, link w = failing e /\ message e = reason)
    \/ link w = throwing reason ->
    let w' := fst (AdminApprovalView.handleApprove w view) in
    let view' := snd (AdminApprovalView.handleApprove w view) in
    db w' = db w
    /\ AdminApprovalView.selectedBooking view' = Some selected
    /\ AdminApprovalView.conflicts view' = AdminApprovalView.conflicts view
    /\ AdminApprovalView.approvalDialogOpen view'
       = AdminApprovalView.approvalDialogOpen view
    /\ AdminApprovalView.bookings view' = AdminApprovalView.bookings view
    /\ AdminApprovalView.processingBookingId view' = EmptyString
    /\ AdminApprovalView.toasts view'
       = AdminApprovalView.toasts view
           ++ [Toast.mk "Error"
                        (if Js.is_empty reason then "Failed to approve booking"
                         else reason)
                        Toast.destructive].
Proof.
  intros w view selected reason Hsel Hl w' view'. subst w' view'.
  unfold AdminApprovalView.handleApprove. rewrite Hsel.
  unfold from_update, write.
  destruct Hl as [(e & -> & <-) | ->]; simpl; repeat split; trivial.
Qed.

Lemma failed_approval_witness :
  db (fst (AdminApprovalView.handleApprove
                (Sample.world [Sample.p1] (failing Sample.network_down) "carol")
                (Sample.confirming Sample.p1)))
  = Sample.store [Sample.p1].
Proof.
  apply (failed_approval_keeps_the_dialog
           (Sample.world [Sample.p1] (failing Sample.network_down) "carol")
           (Sample.confirming Sample.p1) (Sample.listed Sample.p1)
           "TypeError: Failed to fetch"%string eq_refl
           (or_introl (ex_intro _ Sample.network_down (conj eq_refl eq_refl)))).
Defined.

(** X24.  Cancelling does not free the slot.  After a leader or an admin
    has cancelled a booking, on a table that satisfies its constraints, an
    insert for the same room whose interval meets that of the cancelled
    booking (inclusive bounds) is still refused, for every caller. *)
Theorem cancelled_booking_still_blocks_its_slot :
  forall (now : Z) (w : World) (mine : MyBookings.State) (r : Booking)
         (uid : Uid) (newid : string) (row : BookingInsert),
    link w = online ->
    is_manager (db w) (user w) = true ->
    constraints_hold (room_bookings (db w)) ->
    In r (room_bookings (db w)) ->
    ins_room_id row = rb_room_id r ->
    ins_start_time row <= rb_end_time r ->
    rb_start_time r <= ins_end_time row ->
    let w' := fst (MyBookings.handleCancel now w mine (rb_id r)) in
    (exists r', In r' (room_bookings (db w'))
                /\ rb_id r' = rb_id r /\ rb_status r' = cancelled)
    /\ exists e, insert (db w') uid newid row = Fail e.
Proof.
  intros now w mine r uid newid row Hl Hm Hc Hr Hroom H1 H2 w'.
  assert (Hrows : room_bookings (db w')
                  = updated_rows (db w) (user w) (rb_id r)
                                 {| set_status := Some cancelled;
                                    set_updated_at := Some now |}).
  { subst w'. unfold MyBookings.handleCancel, from_update, write.
    rewrite (MutationFacts.manager_update_commits _ _ _ _ Hm Hc), Hl.
    now rewrite WorkflowFacts.loadBookings_db. }
  assert (Hin : In (apply_update {| set_status := Some cancelled;
                                    set_updated_at := Some now |} r)
                   (room_bookings (db w'))).
  { rewrite Hrows. unfold updated_rows. apply in_map_iff. exists r.
    split; trivial. unfold targeted.
    now rewrite String.eqb_refl, MutationFacts.manager_policy. }
  split.
  - eexists. split; [exact Hin|]. split; reflexivity.
  - eapply insert_refused_by_existing_row; [exact Hin | | |]; simpl; auto.
Qed.

Lemma sample_c1_constraints : constraints_hold [Sample.c1].
Proof.
  constructor.
  - repeat constructor. intros [].
  - intros r [<-|[]]. reflexivity.
  - intros a b [<-|[]] [<-|[]] H. now contradiction H.
Defined.

Lemma cancelled_booking_witness :
  exists e,
    insert (db (fst (MyBookings.handleCancel
                       (Sample.at_ 8 0) (Sample.world [Sample.c1] online "carol")
                       MyBookings.initial "c1")))
           (Some "bob"%string) "n1"
           (mkInsert "Demo" None "room-x" "bob" (Sample.at_ 15 0)
                     (Sample.at_ 16 0) pending)
    = Fail e.
Proof.
  apply (cancelled_booking_still_blocks_its_slot
           (Sample.at_ 8 0) (Sample.world [Sample.c1] online "carol")
           MyBookings.initial Sample.c1 (Some "bob"%string) "n1"%string
           (mkInsert "Demo" None "room-x" "bob" (Sample.at_ 15 0)
                     (Sample.at_ 16 0) pending)
           eq_refl eq_refl sample_c1_constraints (or_introl eq_refl)
           eq_refl ltac:(discriminate) ltac:(discriminate)).
Defined.

(** X25.  A caller who is neither leader nor admin learns nothing about
    other people's pending requests from [getConflictingBookings]: every
    booking it reports to such a caller is approved or is the caller's
    own. *)
Theorem staff_see_no_foreign_pending_booking :
  forall (w : World) (roomId exId : string) (startTime endTime : JsDate)
         (c : ConflictingBooking),
    is_manager (db w) (user w) = false ->
    In c (snd (getConflictingBookings w roomId startTime endTime exId)) ->
    exists r, In r (room_bookings (db w))
              /\ rb_id r = cb_id c
              /\ (rb_status r = approved \/ user w = Some (rb_user_id r)).
Proof.
  intros w roomId exId startTime endTime c Hm Hc.
  destruct startTime as [st|], endTime as [en|];
    try (simpl in Hc; contradiction).
  destruct (link w) as [|e|reason] eqn:Hl.
  - rewrite CheckerFacts.getConflictingBookings_online in Hc by exact Hl.
    apply in_map_iff in Hc as (j & <- & Hj).
    apply CheckerFacts.in_found in Hj as (r & Hr & Hvis & _ & Hjoin).
    apply SortFacts.join_row in Hjoin. subst r.
    exists (jb_row j). repeat split; trivial.
    unfold is_manager in Hm. apply orb_false_iff in Hm as [Hlead Hadm].
    unfold select_using in Hvis. rewrite Hlead, Hadm in Hvis.
    rewrite !orb_false_r in Hvis.
    destruct (status_eqb (rb_status (jb_row j)) approved) eqn:Hst.
    + left. now destruct (rb_status (jb_row j)).
    + right. simpl in Hvis. rewrite orb_diag in Hvis.
      unfold uid_is in Hvis. destruct (user w) as [u|]; [|discriminate].
      apply String.eqb_eq in Hvis. now subst.
  - rewrite CheckerFacts.getConflictingBookings_offline in Hc;
      [contradiction | rewrite Hl; discriminate].
  - rewrite CheckerFacts.getConflictingBookings_offline in Hc;
      [contradiction | rewrite Hl; discriminate].
Qed.

Lemma staff_see_witness :
  snd (getConflictingBookings
         (Sample.world [Sample.r1; Sample.p2] online "alice") "room-x"
         (Instant (Sample.at_ 10 0)) (Instant (Sample.at_ 12 0)) "none")
  = [mkConflict "r1" "Meeting r1" "Room X" (Sample.at_ 10 0) (Sample.at_ 11 0)
                "Alice Ng"]
  /\ exists r, In r [Sample.r1; Sample.p2] /\ rb_id r = "r1"%string.
Proof.
  split; [reflexivity|].
  destruct (staff_see_no_foreign_pending_booking
              (Sample.world [Sample.r1; Sample.p2] online "alice")
              "room-x"%string "none"%string
              (Instant (Sample.at_ 10 0)) (Instant (Sample.at_ 12 0))
              (mkConflict "r1" "Meeting r1" "Room X" (Sample.at_ 10 0)
                          (Sample.at_ 11 0) "Alice Ng")
              eq_refl (or_introl eq_refl)) as (r & Hr & Hid & _).
  exists r. split; assumption.
Defined.

(** X26.  The approval view sends an approval to the store in one
    situation only: a click on the Approve button of the open confirmation
    dialog, with a booking selected, an empty conflict list and no request
    in progress; the approval sent is for the selected booking.  No other
    action and no other state of the view sends one. *)
Theorem approvals_come_from_the_confirmed_dialog_only :
  forall (w : World) (view : AdminApprovalView.State)
         (a : AdminApprovalView.Action),
    approvals (sent (fst (AdminApprovalView.act w view a)))
    <> approvals (sent w) ->
    a = AdminApprovalView.clickDialogApprove
    /\ AdminApprovalView.approvalDialogOpen view = true
    /\ AdminApprovalView.conflicts view = []
    /\ AdminApprovalView.processingBookingId view = EmptyString
    /\ exists selected,
        AdminApprovalView.selectedBooking view = Some selected
        /\ approvals (sent (fst (AdminApprovalView.act w view a)))
           = approvals (sent w)
               ++ [Update {| set_status := Some approved;
                             set_updated_at := None |}
                          (AdminApprovalView.pb_id selected)].
Proof.
  intros w view a Hsent. destruct a as [i|i| | |k]; simpl in *;
    [| | | |now contradiction Hsent].
  - exfalso. apply Hsent.
    destruct (nth_error _ i) as [booking|]; trivial.
    destruct (_ && _); trivial.
    rewrite WorkflowFacts.handleApproveClick_sent.
    unfold approvals. rewrite filter_app. simpl. apply app_nil_r.
  - exfalso. apply Hsent.
    destruct (nth_error _ i) as [booking|]; trivial.
    destruct (_ && _); trivial.
    apply WorkflowFacts.handleReject_approvals.
  - destruct (AdminApprovalView.rendered view); simpl in *;
      [|now contradiction Hsent].
    destruct (AdminApprovalView.approvalDialogOpen view); simpl in *;
      [|now contradiction Hsent].
    unfold AdminApprovalView.approve_disabled in *.
    destruct (AdminApprovalView.processingBookingId view) as [|c s];
      simpl in *; [|now contradiction Hsent].
    destruct (AdminApprovalView.conflicts view) as [|c l] eqn:Hconf;
      simpl in *.
    + destruct (AdminApprovalView.selectedBooking view) as [selected|] eqn:Hsel.
      * repeat split. exists selected. split; trivial.
        now apply WorkflowFacts.handleApprove_approvals.
      * exfalso. apply Hsent. unfold AdminApprovalView.handleApprove.
        now rewrite Hsel.
    + exfalso. apply Hsent. reflexivity.
  - exfalso. apply Hsent. now destruct (_ && _).
Qed.

Lemma approvals_witness :
  AdminApprovalView.conflicts (Sample.confirming Sample.p1) = [].
Proof.
  apply (approvals_come_from_the_confirmed_dialog_only
           (Sample.world [Sample.p1] online "carol")
           (Sample.confirming Sample.p1)
           AdminApprovalView.clickDialogApprove).
  discriminate.
Defined.
